(** * HomeWorkCalendar: the assignment store of [server.js]

    A shallow embedding of the Express handlers of [server.js] and of the
    SQLite statements they run, followed by the properties of the
    synchronisation contract: per-user scoping, create / update / delete,
    the bulk replace and the row formatting.

    Modelling choices.
    - The [assignments] table is the list of its rows in rowid order; a new
      row always receives the largest rowid, so inserting appends.
    - A request body is a JSON object and its fields are JSON scalars
      ([JsValue]); an absent field reads as [JUndefined].  Object- and
      array-valued fields are outside the model, and numbers are the
      integral ones.  Strings are byte strings (UTF-8).
    - The clock, the random source and the two value coercions of the
      storage engine that depend on number formatting are read from an
      environment [Env].
    - A statement is a state transformer that either returns or throws;
      a throwing statement leaves the table as it found it, and
      [transaction] restores the table it started from when its body
      throws.
    - The handlers are first modelled on the [assignments] table alone,
      for a caller the authentication middleware has resolved.  The
      [users] table, the middleware and the routes behind it follow; the
      middleware upserts the caller's row before any handler runs, so the
      foreign key of [assignments.user_id] is always satisfied. *)

From Stdlib Require Import ZArith List String Ascii Bool Lia.
From Stdlib Require Import Sorting.Sorted Sorting.Permutation.
From Stdlib Require Import OrderedTypeEx DecimalString.
Import ListNotations.
Open Scope string_scope.

(** ** JavaScript and SQLite values *)

Inductive JsValue : Type :=
| JUndefined
| JNull
| JBool (b : bool)
| JNum (z : Z)
| JStr (s : string).

Inductive SqlValue : Type :=
| SqlNull
| SqlInt (z : Z)
| SqlText (s : string).

(** JavaScript truthiness: [undefined], [null], [false], [0] and the empty
    string are falsy. *)
Definition truthy (v : JsValue) : bool :=
  match v with
  | JUndefined | JNull => false
  | JBool b => b
  | JNum z => negb (z =? 0)%Z
  | JStr s => negb (s =? "")
  end.

(** [a || b] *)
Definition js_or (a b : JsValue) : JsValue := if truthy a then a else b.

(** [v !== undefined] *)
Definition defined (v : JsValue) : bool :=
  match v with JUndefined => false | _ => true end.

(** What a column read hands back to JavaScript. *)
Definition js_of_sql (v : SqlValue) : JsValue :=
  match v with
  | SqlNull => JNull
  | SqlInt z => JNum z
  | SqlText s => JStr s
  end.

Definition js_of_text (c : option string) : JsValue :=
  match c with None => JNull | Some s => JStr s end.

(** ** The environment of a request *)

Record Env : Type := {
  (** SQL [CURRENT_TIMESTAMP] as read by the i-th statement of a handler *)
  CURRENT_TIMESTAMP : nat -> string;
  (** [Date.now().toString()] at the i-th evaluation *)
  Date_now : nat -> string;
  (** [Math.random().toString(36).substr(2, 9)] at the i-th evaluation *)
  Math_random : nat -> string;
  (** [new Date().toISOString()] at the i-th evaluation *)
  toISOString : nat -> string;
  (** TEXT affinity applied to a bound number *)
  real_to_text : Z -> string;
  (** NUMERIC affinity applied to bound text (columns declared DATETIME):
      text that reads as a number is stored as that number *)
  numeric_affinity : string -> SqlValue
}.

(** ** Rows, request bodies and formatted records *)

Module Row.
Record t : Type := mk {
  id : string;
  user_id : string;
  title : string;
  subject : string;
  type : string;
  due_date : string;
  description : option string;
  completed : option Z;
  created_at : SqlValue;
  updated_at : SqlValue
}.
End Row.

Module Body.
Record t : Type := mk {
  id : JsValue;
  title : JsValue;
  subject : JsValue;
  type : JsValue;
  dueDate : JsValue;
  description : JsValue;
  completed : JsValue;
  createdAt : JsValue
}.
End Body.

Module Assignment.
Record t : Type := mk {
  id : JsValue;
  title : JsValue;
  subject : JsValue;
  type : JsValue;
  dueDate : JsValue;
  description : JsValue;
  completed : JsValue;
  createdAt : JsValue;
  updatedAt : JsValue
}.
End Assignment.

Definition Table : Type := list Row.t.

(** An element of the [assignments] array of a sync request.  Reading a
    property of [null] throws; every other non-object element reads
    [undefined] for each property, like an object without fields. *)
Inductive Item : Type :=
| Nullish
| Obj (fields : Body.t).

(** ** Statements: state and exceptions *)

Inductive Error : Type :=
| TypeError     (* a value that cannot be bound, or a property of null *)
| SqliteError.  (* a constraint of the schema *)

Inductive Outcome (A : Type) : Type :=
| Returned (a : A)
| Thrown (e : Error).
Arguments Returned {A} a.
Arguments Thrown {A} e.

Definition Stmt (A : Type) : Type := Table -> Outcome A * Table.

Definition ret {A} (a : A) : Stmt A := fun db => (Returned a, db).
Definition throw {A} (e : Error) : Stmt A := fun db => (Thrown e, db).
Definition bind {A B} (m : Stmt A) (k : A -> Stmt B) : Stmt B :=
  fun db =>
    match m db with
    | (Returned a, db') => k a db'
    | (Thrown e, db') => (Thrown e, db')
    end.

Notation "x <- m ;; k" := (bind m (fun x => k))
  (at level 61, m at next level, right associativity).
Notation "m ;;; k" := (bind m (fun _ => k))
  (at level 61, right associativity).

(** [db.transaction(fn)]: commit when [fn] returns, roll back and rethrow
    when it throws. *)
Definition transaction {A} (fn : Stmt A) : Stmt A :=
  fun db =>
    match fn db with
    | (Returned a, db') => (Returned a, db')
    | (Thrown e, _) => (Thrown e, db)
    end.

(** ** Binding parameters and column affinities *)

(** better-sqlite3 binds numbers and strings, and both [null] and
    [undefined] as NULL; a boolean is a TypeError. *)
Definition bind_value (v : JsValue) : option SqlValue :=
  match v with
  | JNum z => Some (SqlInt z)
  | JStr s => Some (SqlText s)
  | JNull | JUndefined => Some SqlNull
  | JBool _ => None
  end.

(** A bound value under TEXT affinity: [None] is NULL. *)
Definition text_affinity (env : Env) (v : SqlValue) : option string :=
  match v with
  | SqlNull => None
  | SqlInt z => Some (real_to_text env z)
  | SqlText s => Some s
  end.

(** A bound value stored in a DATETIME column. *)
Definition datetime_affinity (env : Env) (v : SqlValue) : SqlValue :=
  match v with
  | SqlText s => numeric_affinity env s
  | _ => v
  end.

Definition bind_text (env : Env) (v : JsValue) : Outcome (option string) :=
  match bind_value v with
  | None => Thrown TypeError
  | Some b => Returned (text_affinity env b)
  end.

(** The row an INSERT builds from its parameters: every parameter is bound
    first, then the NOT NULL constraints are checked.  [completed] is always
    the number 1 or 0 at the call sites; [created_at] is [None] when the
    column list omits it and the default CURRENT_TIMESTAMP applies.  The
    handlers never bind NULL as [id] (it is always [x || <string>]); a NULL
    id is rejected here. *)
Definition new_row (env : Env) (i : nat) (id : JsValue) (user_id : string)
    (title subject type due_date description : JsValue) (completed : Z)
    (created_at : option JsValue) : Outcome Row.t :=
  match bind_value id, bind_value title, bind_value subject, bind_value type,
        bind_value due_date, bind_value description,
        match created_at with
        | None => Some (SqlText (CURRENT_TIMESTAMP env i))
        | Some v => option_map (datetime_affinity env) (bind_value v)
        end
  with
  | Some id', Some title', Some subject', Some type', Some due_date',
    Some description', Some created_at' =>
      match text_affinity env id', text_affinity env title',
            text_affinity env subject', text_affinity env type',
            text_affinity env due_date' with
      | Some id'', Some t, Some s, Some ty, Some d =>
          Returned (Row.mk id'' user_id t s ty d
                           (text_affinity env description') (Some completed)
                           created_at' (SqlText (CURRENT_TIMESTAMP env i)))
      | _, _, _, _, _ => Thrown SqliteError
      end
  | _, _, _, _, _, _, _ => Thrown TypeError
  end.

Definition same_id (id : string) (r : Row.t) : bool := Row.id r =? id.

Definition owned_by (user_id : string) (r : Row.t) : bool :=
  Row.user_id r =? user_id.

(** [WHERE id = ? AND user_id = ?] *)
Definition scoped (id user_id : string) (r : Row.t) : bool :=
  same_id id r && owned_by user_id r.

(** ** ORDER BY due_date ASC

    Text compares bytewise (BINARY collation).  SQLite hands rows with
    equal keys back in the order it scanned them, which is rowid order:
    a stable sort of the table order. *)

Fixpoint insert_by_due_date (r : Row.t) (l : list Row.t) : list Row.t :=
  match l with
  | [] => [r]
  | x :: l' =>
      if (Row.due_date r <=? Row.due_date x)%string then r :: l
      else x :: insert_by_due_date r l'
  end.

Definition order_by_due_date (l : list Row.t) : list Row.t :=
  fold_right insert_by_due_date [] l.

(** The SET clause of the UPDATE statement, applied to one row. *)
Definition set_columns (title subject type due_date : string)
    (description : option string) (completed : option Z) (now : string)
    (r : Row.t) : Row.t :=
  Row.mk (Row.id r) (Row.user_id r) title subject type due_date
         description completed (Row.created_at r) (SqlText now).

(** ** The prepared statements *)

Module statements.

(** SELECT * FROM assignments WHERE user_id = ? ORDER BY due_date ASC *)
Definition getAssignments (user_id : string) : Stmt (list Row.t) :=
  fun db => (Returned (order_by_due_date (filter (owned_by user_id) db)), db).

(** SELECT * FROM assignments WHERE id = ? AND user_id = ? *)
Definition getAssignment (env : Env) (id : JsValue) (user_id : string)
    : Stmt (option Row.t) :=
  fun db =>
    match bind_text env id with
    | Thrown e => (Thrown e, db)
    | Returned None => (Returned None, db)
    | Returned (Some key) => (Returned (find (scoped key user_id) db), db)
    end.

(** INSERT INTO assignments (id, user_id, title, subject, type, due_date,
    description, completed) VALUES (?, ?, ?, ?, ?, ?, ?, ?)

    [id] is the PRIMARY KEY of the table: a row with the same id, whoever
    owns it, makes the statement fail. *)
Definition insertAssignment (env : Env) (id : JsValue) (user_id : string)
    (title subject type due_date description : JsValue) (completed : Z)
    : Stmt unit :=
  fun db =>
    match new_row env 0 id user_id title subject type due_date description
                  completed None with
    | Thrown e => (Thrown e, db)
    | Returned r =>
        if existsb (same_id (Row.id r)) db then (Thrown SqliteError, db)
        else (Returned tt, (db ++ [r])%list)
    end.

(** UPDATE assignments SET title = ?, subject = ?, type = ?, due_date = ?,
    description = ?, completed = ?, updated_at = CURRENT_TIMESTAMP
    WHERE id = ? AND user_id = ? *)
Definition updateAssignment (env : Env)
    (title subject type due_date description : JsValue)
    (completed : option Z) (id : string) (user_id : string) : Stmt unit :=
  fun db =>
    match bind_text env title, bind_text env subject, bind_text env type,
          bind_text env due_date, bind_text env description with
    | Returned title', Returned subject', Returned type',
      Returned due_date', Returned description' =>
        if existsb (scoped id user_id) db then
          match title', subject', type', due_date' with
          | Some t, Some s, Some ty, Some d =>
              (Returned tt,
               map (fun r =>
                      if scoped id user_id r then
                        set_columns t s ty d description' completed
                                    (CURRENT_TIMESTAMP env 0) r
                      else r) db)
          | _, _, _, _ => (Thrown SqliteError, db)
          end
        else (Returned tt, db)
    | _, _, _, _, _ => (Thrown TypeError, db)
    end.

(** DELETE FROM assignments WHERE id = ? AND user_id = ? *)
Definition deleteAssignment (id : string) (user_id : string) : Stmt unit :=
  fun db => (Returned tt, filter (fun r => negb (scoped id user_id r)) db).

(** DELETE FROM assignments WHERE user_id = ? *)
Definition deleteAllAssignments (user_id : string) : Stmt unit :=
  fun db => (Returned tt, filter (fun r => negb (owned_by user_id r)) db).

(** INSERT OR REPLACE INTO assignments (id, user_id, title, subject, type,
    due_date, description, completed, created_at)
    VALUES (?, ?, ?, ?, ?, ?, ?, ?, ?)

    On a PRIMARY KEY conflict the row that holds the id is deleted,
    whoever owns it, and the new row is inserted.  A NULL in a NOT NULL
    column without default still aborts the statement. *)
Definition bulkInsertAssignment (env : Env) (i : nat) (id : JsValue)
    (user_id : string) (title subject type due_date description : JsValue)
    (completed : Z) (created_at : JsValue) : Stmt unit :=
  fun db =>
    match new_row env i id user_id title subject type due_date description
                  completed (Some created_at) with
    | Thrown e => (Thrown e, db)
    | Returned r =>
        (Returned tt,
         (filter (fun x => negb (same_id (Row.id r) x)) db ++ [r])%list)
    end.

End statements.

(** ** Responses *)

Inductive ResponseBody : Type :=
| ErrorBody (error : string)
| SuccessBody                                   (* { success: true } *)
| RecordBody (a : option Assignment.t)          (* a record, or null *)
| ListBody (l : list (option Assignment.t)).

Record Response : Type := Reply { status : nat; body : ResponseBody }.

(** ** Helper functions *)

Definition formatAssignment (row : option Row.t) : option Assignment.t :=
  match row with
  | None => None
  | Some row =>
      Some {| Assignment.id := JStr (Row.id row);
              Assignment.title := JStr (Row.title row);
              Assignment.subject := JStr (Row.subject row);
              Assignment.type := JStr (Row.type row);
              Assignment.dueDate := JStr (Row.due_date row);
              Assignment.description := js_of_text (Row.description row);
              Assignment.completed :=
                JBool (match Row.completed row with
                       | Some z => (z =? 1)%Z
                       | None => false
                       end);
              Assignment.createdAt := js_of_sql (Row.created_at row);
              Assignment.updatedAt := js_of_sql (Row.updated_at row) |}
  end.

(** ** The routes *)

(** [try { ... } catch (error) { res.status(500).json({ error: msg }) }] *)
Definition try_catch (msg : string) (handler : Stmt Response)
    : Table -> Response * Table :=
  fun db =>
    match handler db with
    | (Returned res, db') => (res, db')
    | (Thrown _, db') => (Reply 500 (ErrorBody msg), db')
    end.

(** GET /api/assignments *)
Definition listAssignments (userId : string) : Table -> Response * Table :=
  try_catch "Failed to fetch assignments"
    (assignments <- statements.getAssignments userId ;;
     ret (Reply 200
            (ListBody (map (fun r => formatAssignment (Some r)) assignments)))).

(** [const assignmentId = id || Date.now().toString()] *)
Definition assignmentId (env : Env) (req : Body.t) : JsValue :=
  js_or (Body.id req) (JStr (Date_now env 0)).

(** POST /api/assignments *)
Definition createAssignment (env : Env) (userId : string) (req : Body.t)
    : Table -> Response * Table :=
  try_catch "Failed to create assignment"
    (if negb (truthy (Body.title req)) || negb (truthy (Body.subject req))
        || negb (truthy (Body.type req)) || negb (truthy (Body.dueDate req))
     then ret (Reply 400 (ErrorBody "Missing required fields"))
     else
       let assignmentId := assignmentId env req in
       statements.insertAssignment env
         assignmentId
         userId
         (Body.title req)
         (Body.subject req)
         (Body.type req)
         (Body.dueDate req)
         (js_or (Body.description req) JNull)
         (if truthy (Body.completed req) then 1 else 0)%Z ;;;
       assignment <- statements.getAssignment env assignmentId userId ;;
       ret (Reply 201 (RecordBody (formatAssignment assignment)))).

(** PUT /api/assignments/:id *)
Definition updateAssignment (env : Env) (userId : string) (id : string)
    (req : Body.t) : Table -> Response * Table :=
  try_catch "Failed to update assignment"
    (existing <- statements.getAssignment env (JStr id) userId ;;
     match existing with
     | None => ret (Reply 404 (ErrorBody "Assignment not found"))
     | Some existing =>
         statements.updateAssignment env
           (js_or (Body.title req) (JStr (Row.title existing)))
           (js_or (Body.subject req) (JStr (Row.subject existing)))
           (js_or (Body.type req) (JStr (Row.type existing)))
           (js_or (Body.dueDate req) (JStr (Row.due_date existing)))
           (if defined (Body.description req) then Body.description req
            else js_of_text (Row.description existing))
           (if defined (Body.completed req)
            then Some (if truthy (Body.completed req) then 1 else 0)%Z
            else Row.completed existing)
           id
           userId ;;;
         updated <- statements.getAssignment env (JStr id) userId ;;
         ret (Reply 200 (RecordBody (formatAssignment updated)))
     end).

(** DELETE /api/assignments/:id *)
Definition deleteAssignment (env : Env) (userId : string) (id : string)
    : Table -> Response * Table :=
  try_catch "Failed to delete assignment"
    (existing <- statements.getAssignment env (JStr id) userId ;;
     match existing with
     | None => ret (Reply 404 (ErrorBody "Assignment not found"))
     | Some _ =>
         statements.deleteAssignment id userId ;;;
         ret (Reply 200 SuccessBody)
     end).

(** The [for (const a of items)] loop of the sync transaction; [i] counts
    the iterations. *)
Fixpoint insert_all (env : Env) (userId : string) (i : nat)
    (items : list Item) : Stmt unit :=
  match items with
  | [] => ret tt
  | Nullish :: _ => throw TypeError
  | Obj a :: rest =>
      statements.bulkInsertAssignment env i
        (js_or (Body.id a) (JStr (Date_now env i ++ Math_random env i)))
        userId
        (Body.title a)
        (Body.subject a)
        (Body.type a)
        (Body.dueDate a)
        (js_or (Body.description a) JNull)
        (if truthy (Body.completed a) then 1 else 0)%Z
        (js_or (Body.createdAt a) (JStr (toISOString env i))) ;;;
      insert_all env userId (S i) rest
  end.

Definition syncTransaction (env : Env) (userId : string) (items : list Item)
    : Stmt unit :=
  transaction
    (statements.deleteAllAssignments userId ;;;
     insert_all env userId 0 items).

(** POST /api/assignments/sync; [assignments] is [None] when the field of
    the request body is not an array. *)
Definition syncAssignments (env : Env) (userId : string)
    (assignments : option (list Item)) : Table -> Response * Table :=
  try_catch "Failed to sync assignments"
    (match assignments with
     | None => ret (Reply 400 (ErrorBody "Assignments must be an array"))
     | Some items =>
         syncTransaction env userId items ;;;
         updated <- statements.getAssignments userId ;;
         ret (Reply 200
                (ListBody (map (fun r => formatAssignment (Some r)) updated)))
     end).

(** ** Reading the results *)

(** The rows of one user, in table order. *)
Definition rows_of (userId : string) (db : Table) : list Row.t :=
  filter (owned_by userId) db.

(** The rows of everybody else. *)
Definition rows_of_others (userId : string) (db : Table) : list Row.t :=
  filter (fun r => negb (owned_by userId r)) db.

Definition due_le (r1 r2 : Row.t) : Prop :=
  (Row.due_date r1 <=? Row.due_date r2)%string = true.

Definition due_on (d : string) (r : Row.t) : bool := Row.due_date r =? d.

(** The PRIMARY KEY invariant of the table. *)
Definition pk_unique (db : Table) : Prop := NoDup (map Row.id db).

(** An environment for the examples: a fixed clock, integers rendered as
    SQLite renders small integral reals, and text kept as text in DATETIME
    columns (right for text that does not read as a number, the only kind
    the examples use). *)
Definition sample_env : Env :=
  {| CURRENT_TIMESTAMP := fun _ => "2024-05-01 10:00:00";
     Date_now := fun _ => "1714557600000";
     Math_random := fun i => "k3j9x0a" ++ NilEmpty.string_of_uint (Nat.to_uint i);
     toISOString := fun _ => "2024-05-01T10:00:00.000Z";
     real_to_text := fun z => NilZero.string_of_int (Z.to_int z) ++ ".0";
     numeric_affinity := fun s => SqlText s |}.

(** The row that the i-th iteration of the sync loop hands to
    [bulkInsertAssignment]. *)
Definition item_row (env : Env) (userId : string) (i : nat) (a : Item)
    : Outcome Row.t :=
  match a with
  | Nullish => Thrown TypeError
  | Obj a =>
      new_row env i
        (js_or (Body.id a) (JStr (Date_now env i ++ Math_random env i)))
        userId (Body.title a) (Body.subject a) (Body.type a) (Body.dueDate a)
        (js_or (Body.description a) JNull)
        (if truthy (Body.completed a) then 1 else 0)%Z
        (Some (js_or (Body.createdAt a) (JStr (toISOString env i))))
  end.

(** The rows of all items, or the first exception. *)
Fixpoint item_rows (env : Env) (userId : string) (i : nat)
    (items : list Item) : Outcome (list Row.t) :=
  match items with
  | [] => Returned []
  | a :: rest =>
      match item_row env userId i a with
      | Thrown e => Thrown e
      | Returned r =>
          match item_rows env userId (S i) rest with
          | Thrown e => Thrown e
          | Returned rows => Returned (r :: rows)
          end
      end
  end.

(** The effect of one INSERT OR REPLACE on the table. *)
Definition replace_into (db : Table) (r : Row.t) : Table :=
  (filter (fun x => negb (same_id (Row.id r) x)) db ++ [r])%list.

(** Of the rows that share an id, the last one; the others in order. *)
Fixpoint last_wins (rows : list Row.t) : list Row.t :=
  match rows with
  | [] => []
  | r :: rest =>
      if existsb (same_id (Row.id r)) rest then last_wins rest
      else r :: last_wins rest
  end.

(** The five routes behind the authentication middleware. *)
Inductive Request : Type :=
| GET_assignments
| POST_assignments (req : Body.t)
| PUT_assignment (id : string) (req : Body.t)
| DELETE_assignment (id : string)
| POST_sync (assignments : option (list Item)).

Definition handle (env : Env) (userId : string) (rq : Request)
    : Table -> Response * Table :=
  match rq with
  | GET_assignments => listAssignments userId
  | POST_assignments req => createAssignment env userId req
  | PUT_assignment id req => updateAssignment env userId id req
  | DELETE_assignment id => deleteAssignment env userId id
  | POST_sync assignments => syncAssignments env userId assignments
  end.

(** The assignment records of a response body. *)
Definition records (b : ResponseBody) : list (option Assignment.t) :=
  match b with
  | RecordBody a => [a]
  | ListBody l => l
  | ErrorBody _ | SuccessBody => []
  end.

Definition is_boolean (v : JsValue) : Prop := exists b, v = JBool b.

(** The stored flag is the integer 1. *)
Definition flag_set (c : option Z) : bool :=
  match c with Some z => (z =? 1)%Z | None => false end.

(** A required field as the data model types it: a string when present. *)
Definition text_or_absent (v : JsValue) : Prop :=
  match v with
  | JUndefined | JNull | JStr _ => True
  | JBool _ | JNum _ => False
  end.

Definition missing_or_empty (v : JsValue) : Prop :=
  v = JUndefined \/ v = JNull \/ v = JStr "".

(** Request bodies used in the statements below. *)
Definition empty_body : Body.t :=
  Body.mk JUndefined JUndefined JUndefined JUndefined JUndefined JUndefined
          JUndefined JUndefined.

Definition only_completed (c : JsValue) : Body.t :=
  Body.mk JUndefined JUndefined JUndefined JUndefined JUndefined JUndefined
          c JUndefined.

Definition text_body (id : JsValue) (title subject type dueDate : string)
    : Body.t :=
  Body.mk id (JStr title) (JStr subject) (JStr type) (JStr dueDate)
          JUndefined JUndefined JUndefined.

(** The scenario of the specification. *)
Definition essay : Body.t :=
  text_body JUndefined "Essay" "English" "homework" "2024-06-01".

Definition stored (id user_id title due_date : string) (completed : Z)
    : Row.t :=
  Row.mk id user_id title "Physics" "lab" due_date None (Some completed)
         (SqlText "2024-04-01 09:00:00") (SqlText "2024-04-01 09:00:00").

(** Bob owns one assignment, Alice three. *)
Definition bob_row : Row.t := stored "b1" "bob" "Pendulum" "2024-06-02" 1.

Definition sample_db : Table :=
  [ stored "a1" "alice" "Optics" "2024-06-03" 0;
    bob_row;
    stored "a2" "alice" "Waves" "2024-06-01" 0;
    stored "a3" "alice" "Heat" "2024-06-01" 1 ].

(** Two payload items that carry the same id. *)
Definition duplicate_items : list Item :=
  [ Obj (text_body (JStr "x") "A" "Maths" "homework" "2024-06-01");
    Obj (text_body (JStr "x") "B" "Maths" "homework" "2024-06-02") ].

(** A payload whose second item lacks its required fields. *)
Definition malformed_items : list Item :=
  [ Obj essay; Obj empty_body ].

(** A request body that carries the id of Bob's assignment. *)
Definition foreign_id_body : Body.t :=
  text_body (JStr "b1") "Essay" "English" "homework" "2024-06-01".

Definition foreign_id_items : list Item := [ Obj foreign_id_body ].

(** An update whose [title] is present but empty, with an empty
    [description] and [completed: false]. *)
Definition falsy_update : Body.t :=
  Body.mk JUndefined (JStr "") JUndefined JUndefined JUndefined (JStr "")
          (JBool false) JUndefined.

(** ** The users table and the authentication middleware

    [verifyGoogleToken] runs before every route below: it reads the bearer
    token of the Authorization header, has the identity provider verify it,
    upserts the caller's row of [users] and hands over to the route.  The
    provider is outside the program: [verifyIdToken] gives the payload of
    the ticket, or [None] when verification throws. *)

Module User.
Record t : Type := mk {
  id : string;
  email : string;
  name : option string;
  picture : option string;
  created_at : string;
  updated_at : string
}.
End User.

Module Token.
Record t : Type := mk {
  sub : string;
  email : JsValue;
  name : JsValue;
  picture : JsValue
}.
End Token.

Record Auth : Type := {
  verifyIdToken : string -> option Token.t;
  (** SQL [CURRENT_TIMESTAMP] as read by the upsert of the middleware *)
  upsert_timestamp : string
}.

Record Store : Type := { users : list User.t; assignments : Table }.

(** [s.split(' ')] *)
Fixpoint split_spaces (s : string) : list string :=
  match s with
  | EmptyString => [EmptyString]
  | String c s' =>
      if Ascii.eqb c " "%char then EmptyString :: split_spaces s'
      else
        match split_spaces s' with
        | [] => [String c EmptyString]
        | piece :: pieces => String c piece :: pieces
        end
  end.

(** [s.startsWith(p)] *)
Definition startsWith (s p : string) : bool := String.prefix p s.

Definition has_user_id (id : string) (u : User.t) : bool := User.id u =? id.

(** SELECT * FROM users WHERE id = ? *)
Definition getUser (id : string) (us : list User.t) : option User.t :=
  find (has_user_id id) us.

(** INSERT INTO users (id, email, name, picture, updated_at)
    VALUES (?, ?, ?, ?, CURRENT_TIMESTAMP)
    ON CONFLICT(id) DO UPDATE SET email = excluded.email,
      name = excluded.name, picture = excluded.picture,
      updated_at = CURRENT_TIMESTAMP

    [id] is the PRIMARY KEY, [email] is UNIQUE NOT NULL.  Only a conflict
    on [id] turns the insert into an update; an email held by another row
    aborts the statement. *)
Definition upsertUser (env : Env) (now : string) (id : string)
    (email name picture : JsValue) (us : list User.t)
    : Outcome unit * list User.t :=
  match bind_text env email, bind_text env name, bind_text env picture with
  | Returned email', Returned name', Returned picture' =>
      match email' with
      | None => (Thrown SqliteError, us)
      | Some e =>
          if existsb (has_user_id id) us then
            if existsb (fun u => (User.email u =? e)
                                 && negb (has_user_id id u)) us
            then (Thrown SqliteError, us)
            else
              (Returned tt,
               map (fun u =>
                      if has_user_id id u then
                        User.mk (User.id u) e name' picture'
                                (User.created_at u) now
                      else u) us)
          else
            if existsb (fun u => User.email u =? e) us
            then (Thrown SqliteError, us)
            else (Returned tt, (us ++ [User.mk id e name' picture' now now])%list)
      end
  | _, _, _ => (Thrown TypeError, us)
  end.

Inductive Answer : Type :=
| Unauthorized (error : string)   (* res.status(401).json({ error }) *)
| UserJson (user : option User.t) (* res.json(user) *)
| Routed (res : Response).        (* the answer of an assignment route *)

(** async function verifyGoogleToken(req, res, next); [next] receives
    [req.user.id]. *)
Definition verifyGoogleToken (env : Env) (auth : Auth)
    (authorization : option string)
    (next : string -> Store -> Answer * Store) : Store -> Answer * Store :=
  fun st =>
    match authorization with
    | None => (Unauthorized "No token provided", st)
    | Some authHeader =>
        if negb (truthy (JStr authHeader))
           || negb (startsWith authHeader "Bearer ")
        then (Unauthorized "No token provided", st)
        else
          match nth_error (split_spaces authHeader) 1 with
          | None => (Unauthorized "Invalid token", st)
          | Some token =>
              match verifyIdToken auth token with
              | None => (Unauthorized "Invalid token", st)
              | Some payload =>
                  match upsertUser env (upsert_timestamp auth)
                          (Token.sub payload) (Token.email payload)
                          (Token.name payload) (Token.picture payload)
                          (users st) with
                  | (Thrown _, _) => (Unauthorized "Invalid token", st)
                  | (Returned _, users') =>
                      next (Token.sub payload)
                           {| users := users';
                              assignments := assignments st |}
                  end
              end
          end
    end.

(** The routes behind the middleware. *)
Inductive Route : Type :=
| GET_me
| Assignments (rq : Request).

Definition serve (env : Env) (auth : Auth) (authorization : option string)
    (route : Route) : Store -> Answer * Store :=
  verifyGoogleToken env auth authorization
    (fun userId st =>
       match route with
       | GET_me => (UserJson (getUser userId (users st)), st)
       | Assignments rq =>
           let (res, db') := handle env userId rq (assignments st) in
           (Routed res, {| users := users st; assignments := db' |})
       end).

(** Ids and emails of [users] are unique. *)
Definition users_unique (us : list User.t) : Prop :=
  NoDup (map User.id us) /\ NoDup (map User.email us).

(** Every assignment belongs to a known user (the foreign key). *)
Definition owners_known (st : Store) : Prop :=
  forall r, In r (assignments st) ->
            exists u, In u (users st) /\ User.id u = Row.user_id r.

(** A formatted record read as an item of a sync payload: the loop reads
    the fields of the same names and ignores [updatedAt]. *)
Definition as_payload (a : Assignment.t) : Body.t :=
  Body.mk (Assignment.id a) (Assignment.title a) (Assignment.subject a)
          (Assignment.type a) (Assignment.dueDate a)
          (Assignment.description a) (Assignment.completed a)
          (Assignment.createdAt a).

(** A stored [created_at] that a sync payload hands back unchanged: not
    falsy in JavaScript, and text that the DATETIME column keeps as text. *)
Definition datetime_kept (env : Env) (c : SqlValue) : Prop :=
  match c with
  | SqlNull => False
  | SqlInt z => z <> 0%Z
  | SqlText s => s <> "" /\ numeric_affinity env s = SqlText s
  end.

(** An identity provider for the examples: two known tokens. *)
Definition sample_auth : Auth :=
  {| verifyIdToken := fun token =>
       if token =? "alice-token" then
         Some (Token.mk "alice" (JStr "alice@example.org") (JStr "Alice")
                        (JStr "https://example.org/a.png"))
       else if token =? "carol-token" then
         Some (Token.mk "carol" (JStr "alice@example.org") (JStr "Carol")
                        JNull)
       else None;
     upsert_timestamp := "2024-05-01 09:59:59" |}.

Definition sample_users : list User.t :=
  [ User.mk "alice" "alice@example.org" (Some "Al") None
            "2024-01-01 00:00:00" "2024-01-01 00:00:00";
    User.mk "bob" "bob@example.org" (Some "Bob") None
            "2024-01-02 00:00:00" "2024-01-02 00:00:00" ].

Definition sample_store : Store :=
  {| users := sample_users; assignments := sample_db |}.

(** The Authorization header carries a bearer token that the provider
    verifies as [payload]. *)
Definition presents (auth : Auth) (authHeader : string) (payload : Token.t)
    : Prop :=
  startsWith authHeader "Bearer " = true /\
  exists token,
    nth_error (split_spaces authHeader) 1 = Some token /\
    verifyIdToken auth token = Some payload.

Definition no_space (s : string) : Prop :=
  forall c, In c (list_ascii_of_string s) -> c <> " "%char.

(** A create request with an empty description and a truthy number as
    [completed]. *)
Definition optional_fields_body : Body.t :=
  Body.mk (JStr "n1") (JStr "Notes") (JStr "History") (JStr "reading")
          (JStr "2024-06-05") (JStr "") (JNum 7) JUndefined.

(** Bob's assignment as the list route answers it. *)
Definition bob_record : Assignment.t :=
  Assignment.mk (JStr "b1") (JStr "Pendulum") (JStr "Physics") (JStr "lab")
                (JStr "2024-06-02") JNull (JBool true)
                (JStr "2024-04-01 09:00:00") (JStr "2024-04-01 09:00:00").

(** The payload of Carol's token: it carries Alice's email. *)
Definition carol_payload : Token.t :=
  Token.mk "carol" (JStr "alice@example.org") (JStr "Carol") JNull.

(** * Properties *)

(** ** Text order *)

Lemma string_leb_refl (s : string) : (s <=? s)%string = true.
Proof.
  unfold String.leb.
  destruct (String.compare s s) eqn:E; try reflexivity.
  pose proof (String.compare_antisym s s) as H.
  rewrite E in H. discriminate H.
Qed.

Lemma string_leb_iff (s1 s2 : string) :
  (s1 <=? s2)%string = true <-> s1 = s2 \/ String_as_OT.lt s1 s2.
Proof.
  unfold String.leb. split.
  - destruct (String.compare s1 s2) eqn:E; intros H; try discriminate.
    + left. now apply String_as_OT.cmp_eq.
    + right. now apply String_as_OT.cmp_lt.
  - intros [-> | H].
    + apply string_leb_refl.
    + apply String_as_OT.cmp_lt in H. unfold String_as_OT.cmp in H.
      now rewrite H.
Qed.

Lemma string_leb_trans (s1 s2 s3 : string) :
  (s1 <=? s2)%string = true -> (s2 <=? s3)%string = true ->
  (s1 <=? s3)%string = true.
Proof.
  rewrite !string_leb_iff.
  intros [-> | H12] [-> | H23]; auto.
  right. eapply String_as_OT.lt_trans; eassumption.
Qed.

(** ** ORDER BY is a stable sort *)

Lemma insert_by_due_date_perm (r : Row.t) (l : list Row.t) :
  Permutation (insert_by_due_date r l) (r :: l).
Proof.
  induction l as [| x l IH]; simpl.
  - apply Permutation_refl.
  - destruct (Row.due_date r <=? Row.due_date x)%string.
    + apply Permutation_refl.
    + eapply Permutation_trans; [apply perm_skip, IH | apply perm_swap].
Qed.

Lemma order_by_due_date_perm (l : list Row.t) :
  Permutation (order_by_due_date l) l.
Proof.
  induction l as [| r l IH]; simpl.
  - apply perm_nil.
  - eapply Permutation_trans; [apply insert_by_due_date_perm |].
    now apply perm_skip.
Qed.

Lemma insert_by_due_date_sorted (r : Row.t) (l : list Row.t) :
  StronglySorted due_le l -> StronglySorted due_le (insert_by_due_date r l).
Proof.
  induction 1 as [| x l Hs IH Hx]; simpl.
  - repeat constructor.
  - destruct (Row.due_date r <=? Row.due_date x)%string eqn:E.
    + constructor; [now constructor |].
      constructor; [exact E |].
      eapply Forall_impl; [| exact Hx].
      intros y Hy. unfold due_le in *. eapply string_leb_trans; eassumption.
    + constructor; [exact IH |].
      eapply Permutation_Forall;
        [apply Permutation_sym, insert_by_due_date_perm |].
      constructor; [| exact Hx].
      unfold due_le.
      destruct (String.leb_total (Row.due_date r) (Row.due_date x)); congruence.
Qed.

Lemma order_by_due_date_sorted (l : list Row.t) :
  StronglySorted due_le (order_by_due_date l).
Proof.
  induction l; simpl; [constructor | now apply insert_by_due_date_sorted].
Qed.

Lemma insert_by_due_date_stable (d : string) (r : Row.t) (l : list Row.t) :
  filter (due_on d) (insert_by_due_date r l) = filter (due_on d) (r :: l).
Proof.
  induction l as [| x l IH]; simpl; [reflexivity |].
  destruct (Row.due_date r <=? Row.due_date x)%string eqn:E; [reflexivity |].
  simpl in *. rewrite IH.
  destruct (due_on d x) eqn:Hx; destruct (due_on d r) eqn:Hr; try reflexivity.
  unfold due_on in Hx, Hr.
  apply String.eqb_eq in Hx, Hr.
  rewrite Hx, Hr, string_leb_refl in E. discriminate.
Qed.

Lemma order_by_due_date_stable (d : string) (l : list Row.t) :
  filter (due_on d) (order_by_due_date l) = filter (due_on d) l.
Proof.
  induction l as [| r l IH]; simpl; [reflexivity |].
  rewrite insert_by_due_date_stable. simpl. now rewrite IH.
Qed.

(** C9.  Listing returns the caller's rows and only those, each once,
    ordered by due date ascending; rows with the same due date keep the
    order in which they were inserted; the table is left as it was. *)
Theorem list_ordered_by_due_date (userId : string) (db : Table) :
  exists rows,
    listAssignments userId db =
      (Reply 200 (ListBody (map (fun r => formatAssignment (Some r)) rows)),
       db)
    /\ Permutation rows (rows_of userId db)
    /\ StronglySorted due_le rows
    /\ forall d, filter (due_on d) rows = filter (due_on d) (rows_of userId db).
Proof.
  exists (order_by_due_date (rows_of userId db)).
  repeat split.
  - apply order_by_due_date_perm.
  - apply order_by_due_date_sorted.
  - intros d. apply order_by_due_date_stable.
Qed.

(** ** Looking a row up by [(id, user_id)] *)

Lemma scoped_true (id user_id : string) (r : Row.t) :
  scoped id user_id r = true <-> Row.id r = id /\ Row.user_id r = user_id.
Proof.
  unfold scoped, same_id, owned_by.
  rewrite andb_true_iff, !String.eqb_eq. reflexivity.
Qed.

Lemma getAssignment_text (env : Env) (id user_id : string) (db : Table) :
  statements.getAssignment env (JStr id) user_id db =
    (Returned (find (scoped id user_id) db), db).
Proof. reflexivity. Qed.

Lemma find_scoped_absent (id user_id : string) (db : Table) :
  (forall r, In r db -> ~ (Row.id r = id /\ Row.user_id r = user_id)) ->
  find (scoped id user_id) db = None.
Proof.
  intros H.
  destruct (find (scoped id user_id) db) as [r |] eqn:E; [| reflexivity].
  apply find_some in E. destruct E as [Hin Hs].
  apply scoped_true in Hs. now apply H in Hin.
Qed.

Lemma pk_unique_split (db : Table) (r : Row.t) :
  pk_unique db -> In r db ->
  exists l1 l2,
    db = (l1 ++ r :: l2)%list /\
    forall x, In x (l1 ++ l2)%list -> Row.id x <> Row.id r.
Proof.
  intros Hpk Hin.
  destruct (in_split _ _ Hin) as (l1 & l2 & ->).
  exists l1, l2. split; [reflexivity |].
  unfold pk_unique in Hpk. rewrite map_app in Hpk. simpl in Hpk.
  apply NoDup_remove_2 in Hpk.
  intros x Hx Heq. apply Hpk. rewrite <- map_app, <- Heq.
  now apply in_map.
Qed.

Lemma find_scoped_middle (l1 l2 : list Row.t) (r : Row.t) :
  (forall x, In x l1 -> Row.id x <> Row.id r) ->
  find (scoped (Row.id r) (Row.user_id r)) (l1 ++ r :: l2)%list = Some r.
Proof.
  induction l1 as [| x l1 IH]; intros H; simpl.
  - assert (scoped (Row.id r) (Row.user_id r) r = true) as ->
        by now apply scoped_true.
    reflexivity.
  - destruct (scoped (Row.id r) (Row.user_id r) x) eqn:E.
    + apply scoped_true in E. destruct E as [E _].
      exfalso. apply (H x); [now left | exact E].
    + apply IH. intros y Hy. apply H. now right.
Qed.

Lemma filter_all (A : Type) (p : A -> bool) (l : list A) :
  (forall x, In x l -> p x = true) -> filter p l = l.
Proof.
  induction l as [| x l IH]; intros H; simpl; [reflexivity |].
  rewrite (H x (or_introl eq_refl)). f_equal. apply IH.
  intros y Hy. apply H. now right.
Qed.

Lemma filter_none (A : Type) (p : A -> bool) (l : list A) :
  (forall x, In x l -> p x = false) -> filter p l = [].
Proof.
  induction l as [| x l IH]; intros H; simpl; [reflexivity |].
  rewrite (H x (or_introl eq_refl)). apply IH.
  intros y Hy. apply H. now right.
Qed.

Lemma other_id_not_scoped (id user_id : string) (x : Row.t) :
  Row.id x <> id -> negb (scoped id user_id x) = true.
Proof.
  intros H. unfold scoped, same_id.
  apply String.eqb_neq in H. now rewrite H.
Qed.

Lemma delete_scoped_middle (l1 l2 : list Row.t) (r : Row.t) :
  (forall x, In x (l1 ++ l2)%list -> Row.id x <> Row.id r) ->
  filter (fun x => negb (scoped (Row.id r) (Row.user_id r) x))
         (l1 ++ r :: l2)%list = (l1 ++ l2)%list.
Proof.
  intros H. rewrite filter_app. simpl.
  assert (scoped (Row.id r) (Row.user_id r) r = true) as ->
      by now apply scoped_true.
  simpl. f_equal; apply filter_all; intros x Hx;
    apply other_id_not_scoped, H, in_or_app; auto.
Qed.

(** ** Delete *)

Lemma deleteAssignment_eq (env : Env) (userId id : string) (db : Table) :
  deleteAssignment env userId id db =
    match find (scoped id userId) db with
    | None => (Reply 404 (ErrorBody "Assignment not found"), db)
    | Some _ =>
        (Reply 200 SuccessBody,
         filter (fun r => negb (scoped id userId r)) db)
    end.
Proof.
  unfold deleteAssignment, try_catch, bind.
  rewrite getAssignment_text.
  destruct (find (scoped id userId) db); reflexivity.
Qed.

(** C7.  Deleting an id the caller does not own answers 404 and leaves the
    table as it was.  Deleting an assignment of the caller removes that row
    and no other, answers [{ success: true }], and a second delete of the
    same id answers 404. *)
Theorem delete_semantics (env : Env) (userId id : string) (db : Table) :
  ((forall r, In r db -> ~ (Row.id r = id /\ Row.user_id r = userId)) ->
   deleteAssignment env userId id db =
     (Reply 404 (ErrorBody "Assignment not found"), db))
  /\
  (pk_unique db ->
   forall r, In r db -> Row.id r = id -> Row.user_id r = userId ->
   exists l1 l2,
     db = (l1 ++ r :: l2)%list /\
     deleteAssignment env userId id db =
       (Reply 200 SuccessBody, (l1 ++ l2)%list) /\
     deleteAssignment env userId id (l1 ++ l2)%list =
       (Reply 404 (ErrorBody "Assignment not found"), (l1 ++ l2)%list)).
Proof.
  split.
  - intros H. rewrite deleteAssignment_eq.
    now rewrite (find_scoped_absent _ _ _ H).
  - intros Hpk r Hin <- <-.
    destruct (pk_unique_split db r Hpk Hin) as (l1 & l2 & -> & Hother).
    exists l1, l2. split; [reflexivity |].
    rewrite !deleteAssignment_eq.
    rewrite find_scoped_middle
      by (intros x Hx; apply Hother, in_or_app; auto).
    rewrite delete_scoped_middle by exact Hother.
    rewrite find_scoped_absent; [auto |].
    intros x Hx [Hid _]. now apply (Hother x).
Qed.

(** ** Update *)

Lemma find_scoped_exists (id user_id : string) (db : Table) (r : Row.t) :
  find (scoped id user_id) db = Some r ->
  existsb (scoped id user_id) db = true.
Proof.
  intros H. apply find_some in H. apply existsb_exists. now exists r.
Qed.

Lemma find_scoped_map (id user_id : string) (f : Row.t -> Row.t)
    (db : Table) :
  (forall r, Row.id (f r) = Row.id r /\ Row.user_id (f r) = Row.user_id r) ->
  find (scoped id user_id)
       (map (fun r => if scoped id user_id r then f r else r) db) =
    option_map f (find (scoped id user_id) db).
Proof.
  intros Hf. induction db as [| x db IH]; simpl; [reflexivity |].
  destruct (scoped id user_id x) eqn:E.
  - assert (scoped id user_id (f x) = true) as ->; [| reflexivity].
    apply scoped_true in E. apply scoped_true.
    destruct (Hf x) as [-> ->]. exact E.
  - rewrite E. exact IH.
Qed.

(** What an update of an existing assignment does: either binding fails
    and nothing changes, or the merged values are written to the row and
    the row is read back. *)
Lemma updateAssignment_found (env : Env) (userId id : string) (req : Body.t)
    (db : Table) (existing : Row.t) :
  find (scoped id userId) db = Some existing ->
  (updateAssignment env userId id req db =
     (Reply 500 (ErrorBody "Failed to update assignment"), db))
  \/
  (exists t s ty d desc,
     bind_text env (js_or (Body.title req) (JStr (Row.title existing)))
       = Returned (Some t) /\
     bind_text env (js_or (Body.subject req) (JStr (Row.subject existing)))
       = Returned (Some s) /\
     bind_text env (js_or (Body.type req) (JStr (Row.type existing)))
       = Returned (Some ty) /\
     bind_text env (js_or (Body.dueDate req) (JStr (Row.due_date existing)))
       = Returned (Some d) /\
     bind_text env (if defined (Body.description req)
                    then Body.description req
                    else js_of_text (Row.description existing))
       = Returned desc /\
     let set :=
       set_columns t s ty d desc
         (if defined (Body.completed req)
          then Some (if truthy (Body.completed req) then 1 else 0)%Z
          else Row.completed existing)
         (CURRENT_TIMESTAMP env 0) in
     updateAssignment env userId id req db =
       (Reply 200 (RecordBody (formatAssignment (Some (set existing)))),
        map (fun r => if scoped id userId r then set r else r) db)).
Proof.
  intros Hfind.
  unfold updateAssignment, try_catch, bind.
  rewrite getAssignment_text, Hfind.
  unfold statements.updateAssignment.
  rewrite (find_scoped_exists _ _ _ _ Hfind).
  destruct (bind_text env (js_or (Body.title req) _)) as [[t |] |] eqn:Et;
    destruct (bind_text env (js_or (Body.subject req) _)) as [[s |] |] eqn:Es;
    destruct (bind_text env (js_or (Body.type req) _)) as [[ty |] |] eqn:Ety;
    destruct (bind_text env (js_or (Body.dueDate req) _)) as [[d |] |] eqn:Ed;
    destruct (bind_text env (if defined (Body.description req) then _ else _))
      as [desc |] eqn:Edesc;
    try (left; reflexivity).
  right. exists t, s, ty, d, desc. repeat (split; [reflexivity |]).
  cbv zeta. rewrite getAssignment_text.
  rewrite find_scoped_map by (intros r; split; reflexivity).
  rewrite Hfind. reflexivity.
Qed.

Lemma find_scoped_present (db : Table) (r : Row.t) :
  pk_unique db -> In r db ->
  find (scoped (Row.id r) (Row.user_id r)) db = Some r.
Proof.
  intros Hpk Hin.
  destruct (pk_unique_split db r Hpk Hin) as (l1 & l2 & -> & Hother).
  apply find_scoped_middle. intros x Hx. apply Hother, in_or_app. auto.
Qed.

Lemma js_or_falsy (a b : JsValue) : truthy a = false -> js_or a b = b.
Proof. unfold js_or. now intros ->. Qed.

Lemma bind_text_kept (env : Env) (v : JsValue) (old : string) (t : string) :
  truthy v = false ->
  bind_text env (js_or v (JStr old)) = Returned (Some t) -> t = old.
Proof.
  intros Hv. rewrite (js_or_falsy _ _ Hv). cbn. congruence.
Qed.

Lemma updateAssignment_ok (env : Env) (userId id : string) (req : Body.t)
    (db : Table) (existing : Row.t) (res : Response) (db' : Table) :
  find (scoped id userId) db = Some existing ->
  updateAssignment env userId id req db = (res, db') ->
  status res = 200 ->
  exists t s ty d desc,
    bind_text env (js_or (Body.title req) (JStr (Row.title existing)))
      = Returned (Some t) /\
    bind_text env (js_or (Body.subject req) (JStr (Row.subject existing)))
      = Returned (Some s) /\
    bind_text env (js_or (Body.type req) (JStr (Row.type existing)))
      = Returned (Some ty) /\
    bind_text env (js_or (Body.dueDate req) (JStr (Row.due_date existing)))
      = Returned (Some d) /\
    bind_text env (if defined (Body.description req)
                   then Body.description req
                   else js_of_text (Row.description existing))
      = Returned desc /\
    let set :=
      set_columns t s ty d desc
        (if defined (Body.completed req)
         then Some (if truthy (Body.completed req) then 1 else 0)%Z
         else Row.completed existing)
        (CURRENT_TIMESTAMP env 0) in
    res = Reply 200 (RecordBody (formatAssignment (Some (set existing)))) /\
    db' = map (fun r => if scoped id userId r then set r else r) db.
Proof.
  intros Hfind Hrun Hok.
  destruct (updateAssignment_found env userId id req db existing Hfind)
    as [Hfail | (t & s & ty & d & desc & Ht & Hs & Hty & Hd & Hdesc & Hrun')].
  - rewrite Hfail in Hrun. inversion Hrun; subst. discriminate Hok.
  - exists t, s, ty, d, desc. repeat (split; [assumption |]).
    cbv zeta in *. rewrite Hrun' in Hrun. inversion Hrun; subst. now split.
Qed.

Lemma js_of_text_bound (env : Env) (c desc : option string) :
  bind_text env (js_of_text c) = Returned desc -> desc = c.
Proof. destruct c; cbn; congruence. Qed.

Lemma merged_text_column (env : Env) (v : JsValue) (old t : string) :
  bind_text env (js_or v (JStr old)) = Returned (Some t) ->
  (v = JUndefined -> t = old) /\
  (forall s, v = JStr s -> s <> "" -> t = s) /\
  (truthy v = true -> bind_text env v = Returned (Some t)).
Proof.
  intros H. split; [| split].
  - intros ->. cbn in H. congruence.
  - intros s -> Hs. unfold js_or in H. cbn in H.
    apply String.eqb_neq in Hs. rewrite Hs in H. cbn in H. congruence.
  - intros Hv. unfold js_or in H. now rewrite Hv in H.
Qed.

Lemma merged_description (env : Env) (v : JsValue) (old desc : option string) :
  bind_text env (if defined v then v else js_of_text old) = Returned desc ->
  (v = JUndefined -> desc = old) /\
  (forall s, v = JStr s -> desc = Some s) /\
  (v = JNull -> desc = None).
Proof.
  intros H. split; [| split].
  - intros ->. cbn in H. now apply js_of_text_bound in H.
  - intros s ->. cbn in H. congruence.
  - intros ->. cbn in H. congruence.
Qed.

Lemma merged_completed (v : JsValue) (old : option Z) :
  v <> JUndefined ->
  flag_set (if defined v then Some (if truthy v then 1 else 0)%Z else old)
  = truthy v.
Proof.
  intros Hv. destruct v as [| | [] | z | s]; cbn; try congruence.
  - now destruct (z =? 0)%Z.
  - now destruct (s =? "").
Qed.

(** C4.  Updating an existing assignment merges the request into the row:
    a field absent from the request keeps its value, a field the request
    carries is written (a non-empty string for [title], [subject], [type]
    and [dueDate]; any string or null for [description]; the truth value
    of [completed]), [updatedAt] becomes the current time on every
    successful update, and the answer is the merged row as stored.  A
    request that only carries [completed] succeeds and changes [completed]
    and [updatedAt] alone; an empty request succeeds and changes
    [updatedAt] alone; a request that carries the four text fields
    succeeds and answers them. *)
Theorem update_partial_merge (env : Env) (userId id : string) (req : Body.t)
    (db : Table) (existing : Row.t) :
  pk_unique db -> In existing db ->
  Row.id existing = id -> Row.user_id existing = userId ->
  (forall res db',
     updateAssignment env userId id req db = (res, db') ->
     status res = 200 ->
     exists a r',
       body res = RecordBody (Some a) /\
       find (scoped id userId) db' = Some r' /\
       formatAssignment (Some r') = Some a /\
       (Body.title req = JUndefined ->
        Assignment.title a = JStr (Row.title existing)) /\
       (Body.subject req = JUndefined ->
        Assignment.subject a = JStr (Row.subject existing)) /\
       (Body.type req = JUndefined ->
        Assignment.type a = JStr (Row.type existing)) /\
       (Body.dueDate req = JUndefined ->
        Assignment.dueDate a = JStr (Row.due_date existing)) /\
       (Body.description req = JUndefined ->
        Assignment.description a = js_of_text (Row.description existing)) /\
       (Body.completed req = JUndefined ->
        Assignment.completed a = JBool (flag_set (Row.completed existing))) /\
       Assignment.id a = JStr id /\
       Assignment.createdAt a = js_of_sql (Row.created_at existing) /\
       Assignment.updatedAt a = JStr (CURRENT_TIMESTAMP env 0) /\
       (forall s, Body.title req = JStr s -> s <> "" ->
                  Assignment.title a = JStr s) /\
       (forall s, Body.subject req = JStr s -> s <> "" ->
                  Assignment.subject a = JStr s) /\
       (forall s, Body.type req = JStr s -> s <> "" ->
                  Assignment.type a = JStr s) /\
       (forall s, Body.dueDate req = JStr s -> s <> "" ->
                  Assignment.dueDate a = JStr s) /\
       (forall s, Body.description req = JStr s ->
                  Assignment.description a = JStr s) /\
       (Body.description req = JNull -> Assignment.description a = JNull) /\
       (Body.completed req <> JUndefined ->
        Assignment.completed a = JBool (truthy (Body.completed req))) /\
       (truthy (Body.title req) = true ->
        bind_text env (Body.title req) = Returned (Some (Row.title r'))) /\
       (truthy (Body.subject req) = true ->
        bind_text env (Body.subject req) = Returned (Some (Row.subject r'))) /\
       (truthy (Body.type req) = true ->
        bind_text env (Body.type req) = Returned (Some (Row.type r'))) /\
       (truthy (Body.dueDate req) = true ->
        bind_text env (Body.dueDate req)
          = Returned (Some (Row.due_date r'))))
  /\
  (forall c, c <> JUndefined ->
     fst (updateAssignment env userId id (only_completed c) db) =
       Reply 200 (RecordBody (Some
         (Assignment.mk (JStr id)
            (JStr (Row.title existing)) (JStr (Row.subject existing))
            (JStr (Row.type existing)) (JStr (Row.due_date existing))
            (js_of_text (Row.description existing))
            (JBool (truthy c))
            (js_of_sql (Row.created_at existing))
            (JStr (CURRENT_TIMESTAMP env 0))))))
  /\
  fst (updateAssignment env userId id empty_body db) =
    Reply 200 (RecordBody (Some
      (Assignment.mk (JStr id)
         (JStr (Row.title existing)) (JStr (Row.subject existing))
         (JStr (Row.type existing)) (JStr (Row.due_date existing))
         (js_of_text (Row.description existing))
         (JBool (flag_set (Row.completed existing)))
         (js_of_sql (Row.created_at existing))
         (JStr (CURRENT_TIMESTAMP env 0)))))
  /\
  (forall t s ty d, t <> "" -> s <> "" -> ty <> "" -> d <> "" ->
     fst (updateAssignment env userId id (text_body JUndefined t s ty d) db) =
       Reply 200 (RecordBody (Some
         (Assignment.mk (JStr id) (JStr t) (JStr s) (JStr ty) (JStr d)
            (js_of_text (Row.description existing))
            (JBool (flag_set (Row.completed existing)))
            (js_of_sql (Row.created_at existing))
            (JStr (CURRENT_TIMESTAMP env 0)))))).
Proof.
  intros Hpk Hin <- <-.
  pose proof (find_scoped_present db existing Hpk Hin) as Hfind.
  split; [| split; [| split]].
  - intros res db' Hrun Hok.
    destruct (updateAssignment_ok _ _ _ _ _ _ _ _ Hfind Hrun Hok)
      as (t & s & ty & d & desc & Ht & Hs & Hty & Hd & Hdesc & Hres & Hdb).
    cbv zeta in Hres, Hdb. subst res db'.
    destruct (merged_text_column _ _ _ _ Ht) as (Ht1 & Ht2 & Ht3).
    destruct (merged_text_column _ _ _ _ Hs) as (Hs1 & Hs2 & Hs3).
    destruct (merged_text_column _ _ _ _ Hty) as (Hty1 & Hty2 & Hty3).
    destruct (merged_text_column _ _ _ _ Hd) as (Hd1 & Hd2 & Hd3).
    destruct (merged_description _ _ _ _ Hdesc) as (Hdesc1 & Hdesc2 & Hdesc3).
    eexists. eexists. split; [reflexivity |]. split.
    { rewrite find_scoped_map by (intros r; split; reflexivity).
      rewrite Hfind. reflexivity. }
    split; [reflexivity |]. cbn.
    repeat split.
    + intros E. now rewrite (Ht1 E).
    + intros E. now rewrite (Hs1 E).
    + intros E. now rewrite (Hty1 E).
    + intros E. now rewrite (Hd1 E).
    + intros E. now rewrite (Hdesc1 E).
    + intros E. rewrite E. reflexivity.
    + intros x E Hx. now rewrite (Ht2 x E Hx).
    + intros x E Hx. now rewrite (Hs2 x E Hx).
    + intros x E Hx. now rewrite (Hty2 x E Hx).
    + intros x E Hx. now rewrite (Hd2 x E Hx).
    + intros x E. now rewrite (Hdesc2 x E).
    + intros E. now rewrite (Hdesc3 E).
    + intros E. fold (flag_set
                        (if defined (Body.completed req)
                         then Some (if truthy (Body.completed req)
                                    then 1 else 0)%Z
                         else Row.completed existing)).
      now rewrite merged_completed.
    + exact Ht3.
    + exact Hs3.
    + exact Hty3.
    + exact Hd3.
  - intros c Hc.
    destruct (updateAssignment_found env (Row.user_id existing)
                (Row.id existing) (only_completed c) db existing Hfind)
      as [Hfail | (t & s & ty & d & desc & Ht & Hs & Hty & Hd & Hdesc & Hrun)].
    + exfalso. revert Hfail.
      unfold updateAssignment, try_catch, bind.
      rewrite getAssignment_text, Hfind.
      unfold statements.updateAssignment.
      rewrite (find_scoped_exists _ _ _ _ Hfind). cbn.
      destruct (Row.description existing); cbn; discriminate.
    + cbv zeta in Hrun. rewrite Hrun. cbn in *.
      apply js_of_text_bound in Hdesc.
      inversion Ht; inversion Hs; inversion Hty; inversion Hd; subst.
      assert (defined c = true) as -> by (destruct c; cbn; congruence).
      cbn. now destruct (truthy c).
  - destruct (updateAssignment_found env (Row.user_id existing)
                (Row.id existing) empty_body db existing Hfind)
      as [Hfail | (t & s & ty & d & desc & Ht & Hs & Hty & Hd & Hdesc & Hrun)].
    + exfalso. revert Hfail.
      unfold updateAssignment, try_catch, bind.
      rewrite getAssignment_text, Hfind.
      unfold statements.updateAssignment.
      rewrite (find_scoped_exists _ _ _ _ Hfind). cbn.
      destruct (Row.description existing); cbn; discriminate.
    + cbv zeta in Hrun. rewrite Hrun. cbn in *.
      apply js_of_text_bound in Hdesc.
      inversion Ht; inversion Hs; inversion Hty; inversion Hd; subst.
      reflexivity.
  - intros t s ty d Ht0 Hs0 Hty0 Hd0.
    apply String.eqb_neq in Ht0, Hs0, Hty0, Hd0.
    destruct (updateAssignment_found env (Row.user_id existing)
                (Row.id existing) (text_body JUndefined t s ty d) db
                existing Hfind)
      as [Hfail | (t' & s' & ty' & d' & desc & Ht & Hs & Hty & Hd & Hdesc
                   & Hrun)].
    + exfalso. revert Hfail.
      unfold updateAssignment, try_catch, bind.
      rewrite getAssignment_text, Hfind.
      unfold statements.updateAssignment.
      rewrite (find_scoped_exists _ _ _ _ Hfind). cbn.
      unfold js_or. cbn. rewrite Ht0, Hs0, Hty0, Hd0. cbn.
      destruct (Row.description existing); cbn; discriminate.
    + cbv zeta in Hrun. rewrite Hrun.
      unfold js_or in Ht, Hs, Hty, Hd. cbn in *.
      rewrite Ht0 in Ht. rewrite Hs0 in Hs. rewrite Hty0 in Hty.
      rewrite Hd0 in Hd. cbn in *.
      apply js_of_text_bound in Hdesc.
      inversion Ht; inversion Hs; inversion Hty; inversion Hd; subst.
      reflexivity.
Qed.

(** C10.  In an update, [title], [subject], [type] and [dueDate] are merged
    with [||]: a value that is present but falsy, such as the empty string,
    keeps the stored value, like an absent one.  [description] and
    [completed] are merged with [!== undefined]: only an absent value keeps
    the stored one, so [description: ""] and [completed: false] are
    written. *)
Theorem update_merge_asymmetry (env : Env) (userId id : string)
    (req : Body.t) (db : Table) (existing : Row.t) (res : Response)
    (db' : Table) :
  pk_unique db -> In existing db ->
  Row.id existing = id -> Row.user_id existing = userId ->
  updateAssignment env userId id req db = (res, db') ->
  status res = 200 ->
  exists a r',
    body res = RecordBody (Some a) /\
    find (scoped id userId) db' = Some r' /\
    formatAssignment (Some r') = Some a /\
    (truthy (Body.title req) = false ->
     Row.title r' = Row.title existing) /\
    (truthy (Body.subject req) = false ->
     Row.subject r' = Row.subject existing) /\
    (truthy (Body.type req) = false ->
     Row.type r' = Row.type existing) /\
    (truthy (Body.dueDate req) = false ->
     Row.due_date r' = Row.due_date existing) /\
    (Body.description req = JUndefined ->
     Row.description r' = Row.description existing) /\
    (forall s, Body.description req = JStr s ->
     Row.description r' = Some s) /\
    (Body.description req = JNull -> Row.description r' = None) /\
    (Body.completed req = JUndefined ->
     Row.completed r' = Row.completed existing) /\
    (Body.completed req <> JUndefined ->
     Row.completed r' =
       Some (if truthy (Body.completed req) then 1 else 0)%Z /\
     Assignment.completed a = JBool (truthy (Body.completed req))).
Proof.
  intros Hpk Hin <- <- Hrun Hok.
  pose proof (find_scoped_present db existing Hpk Hin) as Hfind.
  destruct (updateAssignment_ok _ _ _ _ _ _ _ _ Hfind Hrun Hok)
    as (t & s & ty & d & desc & Ht & Hs & Hty & Hd & Hdesc & Hres & Hdb).
  cbv zeta in Hres, Hdb. subst res db'.
  eexists. eexists. split; [reflexivity |]. split.
  { rewrite find_scoped_map by (intros r; split; reflexivity).
    rewrite Hfind. reflexivity. }
  split; [reflexivity |]. cbn.
  repeat split.
  - intros E. now apply bind_text_kept in Ht.
  - intros E. now apply bind_text_kept in Hs.
  - intros E. now apply bind_text_kept in Hty.
  - intros E. now apply bind_text_kept in Hd.
  - intros E. rewrite E in Hdesc. cbn in Hdesc.
    now apply js_of_text_bound in Hdesc.
  - intros s' E. rewrite E in Hdesc. cbn in Hdesc. congruence.
  - intros E. rewrite E in Hdesc. cbn in Hdesc. congruence.
  - intros E. now rewrite E.
  - destruct (Body.completed req); cbn; congruence.
  - destruct (Body.completed req) as [| | [] | z | s']; cbn; try congruence.
    + now destruct (z =? 0)%Z.
    + now destruct (s' =? "").
Qed.

(** ** Create *)

(** The id handed to an INSERT is [x || <string>]: it is never NULL. *)
Lemma id_argument_not_null (v : JsValue) (s : string) :
  bind_value (js_or v (JStr s)) <> Some SqlNull.
Proof.
  unfold js_or. destruct v as [| | [] | z | s']; cbn; try discriminate.
  - destruct (z =? 0)%Z; discriminate.
  - destruct (s' =? ""); discriminate.
Qed.

Lemma new_row_inv (env : Env) (i : nat) (id : JsValue) (user_id : string)
    (title subject type due_date description : JsValue) (completed : Z)
    (created_at : option JsValue) (r : Row.t) :
  new_row env i id user_id title subject type due_date description completed
          created_at = Returned r ->
  bind_text env id = Returned (Some (Row.id r)) /\
  bind_text env title = Returned (Some (Row.title r)) /\
  bind_text env subject = Returned (Some (Row.subject r)) /\
  bind_text env type = Returned (Some (Row.type r)) /\
  bind_text env due_date = Returned (Some (Row.due_date r)) /\
  bind_text env description = Returned (Row.description r) /\
  Row.user_id r = user_id /\
  Row.completed r = Some completed /\
  Row.updated_at r = SqlText (CURRENT_TIMESTAMP env i) /\
  match created_at with
  | None => Row.created_at r = SqlText (CURRENT_TIMESTAMP env i)
  | Some v =>
      exists b, bind_value v = Some b /\
                Row.created_at r = datetime_affinity env b
  end.
Proof.
  unfold new_row, bind_text.
  destruct (bind_value id) as [bid |]; [| discriminate].
  destruct (bind_value title) as [bt |]; [| discriminate].
  destruct (bind_value subject) as [bs |]; [| discriminate].
  destruct (bind_value type) as [bty |]; [| discriminate].
  destruct (bind_value due_date) as [bd |]; [| discriminate].
  destruct (bind_value description) as [bdesc |]; [| discriminate].
  destruct created_at as [v |].
  - destruct (bind_value v) as [b |]; [| discriminate]. cbn.
    destruct (text_affinity env bid); [| discriminate].
    destruct (text_affinity env bt); [| discriminate].
    destruct (text_affinity env bs); [| discriminate].
    destruct (text_affinity env bty); [| discriminate].
    destruct (text_affinity env bd); [| discriminate].
    intros H. inversion H; subst; cbn. repeat split. now exists b.
  - destruct (text_affinity env bid); [| discriminate].
    destruct (text_affinity env bt); [| discriminate].
    destruct (text_affinity env bs); [| discriminate].
    destruct (text_affinity env bty); [| discriminate].
    destruct (text_affinity env bd); [| discriminate].
    intros H. inversion H; subst; cbn. repeat split.
Qed.

Lemma find_scoped_appended (db : Table) (r : Row.t) :
  existsb (same_id (Row.id r)) db = false ->
  find (scoped (Row.id r) (Row.user_id r)) (db ++ [r])%list = Some r.
Proof.
  intros H. rewrite <- (app_nil_r (db ++ [r])%list), <- app_assoc. simpl.
  apply find_scoped_middle.
  intros x Hx Heq.
  assert (existsb (same_id (Row.id r)) db = true); [| congruence].
  apply existsb_exists. exists x. split; [exact Hx |].
  unfold same_id. now apply String.eqb_eq.
Qed.

Lemma createAssignment_eq (env : Env) (userId : string) (req : Body.t)
    (db : Table) :
  createAssignment env userId req db =
    if negb (truthy (Body.title req)) || negb (truthy (Body.subject req))
       || negb (truthy (Body.type req)) || negb (truthy (Body.dueDate req))
    then (Reply 400 (ErrorBody "Missing required fields"), db)
    else
      match new_row env 0 (assignmentId env req)
                    userId (Body.title req) (Body.subject req)
                    (Body.type req) (Body.dueDate req)
                    (js_or (Body.description req) JNull)
                    (if truthy (Body.completed req) then 1 else 0)%Z None
      with
      | Thrown _ => (Reply 500 (ErrorBody "Failed to create assignment"), db)
      | Returned r =>
          if existsb (same_id (Row.id r)) db
          then (Reply 500 (ErrorBody "Failed to create assignment"), db)
          else (Reply 201 (RecordBody (formatAssignment (Some r))),
                (db ++ [r])%list)
      end.
Proof.
  unfold createAssignment, try_catch.
  destruct (negb (truthy (Body.title req)) || negb (truthy (Body.subject req))
            || negb (truthy (Body.type req))
            || negb (truthy (Body.dueDate req))); [reflexivity |].
  cbv zeta. unfold bind at 1. unfold statements.insertAssignment.
  destruct (new_row _ _ _ _ _ _ _ _ _ _ _) as [r | e] eqn:Hrow;
    [| reflexivity].
  destruct (existsb (same_id (Row.id r)) db) eqn:Hpk; [reflexivity |].
  unfold bind, statements.getAssignment, ret.
  destruct (new_row_inv _ _ _ _ _ _ _ _ _ _ _ _ Hrow)
    as (Hid & _ & _ & _ & _ & _ & Hu & _).
  rewrite Hid. subst userId.
  now rewrite find_scoped_appended.
Qed.

Lemma falsy_text (v : JsValue) :
  text_or_absent v -> (truthy v = false <-> missing_or_empty v).
Proof.
  unfold missing_or_empty.
  destruct v as [| | b | z | s]; cbn; try contradiction; intros _.
  - split; auto.
  - split; auto.
  - rewrite negb_false_iff, String.eqb_eq. split.
    + intros ->. auto.
    + intros [H | [H | H]]; congruence.
Qed.

(** Whatever the types of the fields, the 400 answer is the falsy test of
    the handler. *)
Lemma create_rejects_falsy (env : Env) (userId : string) (req : Body.t)
    (db : Table) :
  fst (createAssignment env userId req db) =
    Reply 400 (ErrorBody "Missing required fields")
  <-> truthy (Body.title req) = false \/ truthy (Body.subject req) = false \/
      truthy (Body.type req) = false \/ truthy (Body.dueDate req) = false.
Proof.
  rewrite createAssignment_eq.
  destruct (truthy (Body.title req)), (truthy (Body.subject req)),
           (truthy (Body.type req)), (truthy (Body.dueDate req)); cbn;
    try (split; [auto | reflexivity]).
  split; [| intuition discriminate].
  destruct (new_row _ _ _ _ _ _ _ _ _ _ _) as [r | e]; [| discriminate].
  destruct (existsb (same_id (Row.id r)) db); discriminate.
Qed.

Lemma bind_text_string (env : Env) (v : JsValue) (s : string) :
  text_or_absent v -> bind_text env v = Returned (Some s) -> v = JStr s.
Proof.
  destruct v; cbn; try tauto; try discriminate. congruence.
Qed.

(** C6.  With the required fields typed as the data model types them
    (strings when present), a create is rejected as a validation error
    exactly when [title], [subject], [type] or [dueDate] is missing or
    empty.  A rejected create inserts nothing.  A successful create adds
    exactly one row, owned by the caller and stamped with the current
    time, and answers that row. *)
Theorem create_validation (env : Env) (userId : string) (req : Body.t)
    (db : Table) :
  text_or_absent (Body.title req) -> text_or_absent (Body.subject req) ->
  text_or_absent (Body.type req) -> text_or_absent (Body.dueDate req) ->
  (fst (createAssignment env userId req db) =
     Reply 400 (ErrorBody "Missing required fields")
   <-> missing_or_empty (Body.title req) \/
       missing_or_empty (Body.subject req) \/
       missing_or_empty (Body.type req) \/
       missing_or_empty (Body.dueDate req))
  /\
  (status (fst (createAssignment env userId req db)) <> 201 ->
   snd (createAssignment env userId req db) = db)
  /\
  (status (fst (createAssignment env userId req db)) = 201 ->
   exists r,
     createAssignment env userId req db =
       (Reply 201 (RecordBody (formatAssignment (Some r))),
        (db ++ [r])%list) /\
     Row.user_id r = userId /\
     JStr (Row.title r) = Body.title req /\
     JStr (Row.subject r) = Body.subject req /\
     JStr (Row.type r) = Body.type req /\
     JStr (Row.due_date r) = Body.dueDate req /\
     Row.created_at r = SqlText (CURRENT_TIMESTAMP env 0) /\
     Row.updated_at r = SqlText (CURRENT_TIMESTAMP env 0)).
Proof.
  intros Ht Hs Hty Hd.
  rewrite createAssignment_eq.
  rewrite <- (falsy_text _ Ht), <- (falsy_text _ Hs), <- (falsy_text _ Hty),
          <- (falsy_text _ Hd).
  destruct (truthy (Body.title req)), (truthy (Body.subject req)),
           (truthy (Body.type req)), (truthy (Body.dueDate req)); cbn;
    try (split; [split; [tauto | reflexivity]
                | split; [reflexivity | discriminate]]).
  destruct (new_row _ _ _ _ _ _ _ _ _ _ _) as [r | e] eqn:Hrow.
  - destruct (existsb (same_id (Row.id r)) db) eqn:Hpk; cbn.
    + split; [split; [discriminate | intuition discriminate] |].
      split; [reflexivity | discriminate].
    + split; [split; [discriminate | intuition discriminate] |].
      split; [intros H; now elim H |].
      intros _. exists r. split; [reflexivity |].
      destruct (new_row_inv _ _ _ _ _ _ _ _ _ _ _ _ Hrow)
        as (_ & Ht' & Hs' & Hty' & Hd' & _ & Hu & _ & Hup & Hcr).
      apply (bind_text_string _ _ _ Ht) in Ht'.
      apply (bind_text_string _ _ _ Hs) in Hs'.
      apply (bind_text_string _ _ _ Hty) in Hty'.
      apply (bind_text_string _ _ _ Hd) in Hd'.
      repeat split; auto.
  - cbn. split; [split; [discriminate | intuition discriminate] |].
    split; [reflexivity | discriminate].
Qed.

(** ** The primary key *)

Lemma same_id_absent (id : string) (db : Table) :
  existsb (same_id id) db = false <-> ~ In id (map Row.id db).
Proof.
  split.
  - intros H Hin. apply in_map_iff in Hin. destruct Hin as (x & Hx & Hin).
    assert (existsb (same_id id) db = true); [| congruence].
    apply existsb_exists. exists x. split; [exact Hin |].
    unfold same_id. now apply String.eqb_eq.
  - intros H. destruct (existsb (same_id id) db) eqn:E; [| reflexivity].
    apply existsb_exists in E. destruct E as (x & Hin & Hx).
    unfold same_id in Hx. apply String.eqb_eq in Hx.
    exfalso. apply H. rewrite <- Hx. now apply in_map.
Qed.

Lemma pk_unique_snoc (db : Table) (r : Row.t) :
  pk_unique db -> ~ In (Row.id r) (map Row.id db) ->
  pk_unique (db ++ [r])%list.
Proof.
  unfold pk_unique. intros Hpk Hnew.
  rewrite map_app. simpl.
  apply (Permutation_NoDup (l := Row.id r :: map Row.id db)).
  - apply Permutation_cons_append.
  - now constructor.
Qed.


(** ** Sync *)

Lemma insert_all_rows (env : Env) (userId : string) (items : list Item) :
  forall i rows db,
    item_rows env userId i items = Returned rows ->
    insert_all env userId i items db =
      (Returned tt, fold_left replace_into rows db).
Proof.
  induction items as [| a items IH]; intros i rows db Hrows; simpl in *.
  - inversion Hrows. reflexivity.
  - destruct a as [| a]; [discriminate |]. simpl in Hrows.
    unfold bind, statements.bulkInsertAssignment.
    destruct (new_row _ _ _ _ _ _ _ _ _ _ _) as [r | e]; [| discriminate].
    destruct (item_rows env userId (S i) items) as [rest | e] eqn:Hrest;
      [| discriminate].
    inversion Hrows; subst. simpl. now apply IH.
Qed.

Lemma insert_all_throws (env : Env) (userId : string) (items : list Item) :
  forall i e db,
    item_rows env userId i items = Thrown e ->
    exists db', insert_all env userId i items db = (Thrown e, db').
Proof.
  induction items as [| a items IH]; intros i e db Hrows; simpl in *.
  - discriminate.
  - destruct a as [| a].
    + inversion Hrows. now exists db.
    + simpl in Hrows. unfold bind, statements.bulkInsertAssignment.
      destruct (new_row _ _ _ _ _ _ _ _ _ _ _) as [r | e'].
      * destruct (item_rows env userId (S i) items) as [rest | e'] eqn:Hrest;
          [discriminate |].
        inversion Hrows; subst. now apply IH.
      * inversion Hrows; subst. now exists db.
Qed.

Lemma syncAssignments_eq (env : Env) (userId : string) (items : list Item)
    (db : Table) :
  syncAssignments env userId (Some items) db =
    match item_rows env userId 0 items with
    | Returned rows =>
        let db' := fold_left replace_into rows (rows_of_others userId db) in
        (Reply 200
           (ListBody (map (fun r => formatAssignment (Some r))
                          (order_by_due_date (rows_of userId db')))),
         db')
    | Thrown _ => (Reply 500 (ErrorBody "Failed to sync assignments"), db)
    end.
Proof.
  unfold syncAssignments, try_catch, syncTransaction, transaction.
  unfold bind at 1. unfold bind at 1.
  unfold statements.deleteAllAssignments.
  destruct (item_rows env userId 0 items) as [rows | e] eqn:Hrows.
  - rewrite (insert_all_rows _ _ _ _ _ _ Hrows). reflexivity.
  - destruct (insert_all_throws _ _ _ _ _
                (filter (fun r => negb (owned_by userId r)) db) Hrows)
      as (db'' & ->).
    reflexivity.
Qed.

Lemma item_rows_length (env : Env) (userId : string) (items : list Item) :
  forall i rows,
    item_rows env userId i items = Returned rows ->
    List.length rows = List.length items.
Proof.
  induction items as [| a items IH]; intros i rows H; simpl in *.
  - now inversion H.
  - destruct (item_row env userId i a); [| discriminate].
    destruct (item_rows env userId (S i) items) eqn:E; [| discriminate].
    inversion H; subst. simpl. f_equal. eapply IH, E.
Qed.

Lemma item_rows_nth (env : Env) (userId : string) (items : list Item) :
  forall i rows k r,
    item_rows env userId i items = Returned rows ->
    nth_error rows k = Some r ->
    exists a, nth_error items k = Some a /\
              item_row env userId (i + k) a = Returned r.
Proof.
  induction items as [| a items IH]; intros i rows k r H Hk; simpl in *.
  - inversion H; subst. now destruct k.
  - destruct (item_row env userId i a) as [r0 |] eqn:E0; [| discriminate].
    destruct (item_rows env userId (S i) items) eqn:E; [| discriminate].
    inversion H; subst. destruct k as [| k]; simpl in *.
    + inversion Hk; subst. exists a. now rewrite Nat.add_0_r.
    + destruct (IH _ _ _ _ E Hk) as (a' & Ha' & Hr).
      exists a'. split; [exact Ha' |].
      now replace (i + S k) with (S i + k) by lia.
Qed.

Lemma item_rows_fails (env : Env) (userId : string) (items : list Item) :
  forall i k a,
    nth_error items k = Some a ->
    (forall r, item_row env userId (i + k) a <> Returned r) ->
    exists e, item_rows env userId i items = Thrown e.
Proof.
  induction items as [| a0 items IH]; intros i k a Hk Hfail.
  - now destruct k.
  - simpl. destruct k as [| k]; simpl in Hk.
    + inversion Hk; subst. rewrite Nat.add_0_r in Hfail.
      destruct (item_row env userId i a) as [r | e].
      * now elim (Hfail r).
      * now exists e.
    + destruct (item_row env userId i a0) as [r | e]; [| now exists e].
      destruct (IH (S i) k a Hk) as (e & ->).
      * now replace (S i + k) with (i + S k) by lia.
      * now exists e.
Qed.

Lemma item_rows_owned (env : Env) (userId : string) (items : list Item) :
  forall i rows,
    item_rows env userId i items = Returned rows ->
    Forall (fun r => Row.user_id r = userId) rows.
Proof.
  induction items as [| a items IH]; intros i rows H; simpl in *.
  - inversion H. constructor.
  - destruct (item_row env userId i a) as [r |] eqn:E0; [| discriminate].
    destruct (item_rows env userId (S i) items) eqn:E; [| discriminate].
    inversion H; subst. constructor; [| eapply IH, E].
    destruct a as [| a]; [discriminate |].
    now destruct (new_row_inv _ _ _ _ _ _ _ _ _ _ _ _ E0)
      as (_ & _ & _ & _ & _ & _ & Hu & _).
Qed.

Lemma filter_filter_and (A : Type) (p q : A -> bool) (l : list A) :
  filter p (filter q l) = filter (fun x => q x && p x) l.
Proof.
  induction l as [| x l IH]; simpl; [reflexivity |].
  destruct (q x); simpl; [destruct (p x) |]; now rewrite IH.
Qed.

Lemma rows_of_replace_into (userId : string) (db : Table) (r : Row.t) :
  Row.user_id r = userId ->
  rows_of userId (replace_into db r) =
    (filter (fun x => negb (same_id (Row.id r) x)) (rows_of userId db)
       ++ [r])%list.
Proof.
  intros Hu. unfold rows_of, replace_into.
  rewrite filter_app. simpl.
  assert (owned_by userId r = true) as ->
      by (unfold owned_by; now apply String.eqb_eq).
  f_equal. rewrite !filter_filter_and.
  apply filter_ext. intros x. apply andb_comm.
Qed.

(** After the loop, the caller owns the last row of each id of the payload;
    a row the caller owned before survives only if no payload row took its
    id. *)
Lemma rows_of_fold_replace (userId : string) (rows : list Row.t) :
  Forall (fun r => Row.user_id r = userId) rows ->
  forall db,
    rows_of userId (fold_left replace_into rows db) =
      (filter (fun x => negb (existsb (same_id (Row.id x)) rows))
              (rows_of userId db)
         ++ last_wins rows)%list.
Proof.
  induction 1 as [| r rows Hr Hrows IH]; intros db; simpl.
  - rewrite app_nil_r. symmetry. now apply filter_all.
  - rewrite IH, (rows_of_replace_into _ _ _ Hr), filter_app.
    rewrite filter_filter_and, <- app_assoc. f_equal.
    + apply filter_ext. intros x. unfold same_id.
      rewrite negb_orb, (String.eqb_sym (Row.id r) (Row.id x)).
      reflexivity.
    + simpl. now destruct (existsb (same_id (Row.id r)) rows).
Qed.

Lemma rows_of_rows_of_others (userId : string) (db : Table) :
  rows_of userId (rows_of_others userId db) = [].
Proof.
  unfold rows_of, rows_of_others. rewrite filter_filter_and.
  apply filter_none. intros x _. now destruct (owned_by userId x).
Qed.

Lemma last_wins_distinct (rows : list Row.t) :
  NoDup (map Row.id rows) -> last_wins rows = rows.
Proof.
  induction rows as [| r rows IH]; simpl; intros H; [reflexivity |].
  inversion H as [| ? ? Hnew Hrest]; subst.
  apply same_id_absent in Hnew. rewrite Hnew. f_equal. now apply IH.
Qed.

(** C2 (as amended).  A successful sync leaves the caller with the rows
    built from the payload, one per distinct id: of the items that carry
    the same id only the last is kept.  When the ids of the payload rows
    are pairwise distinct the caller owns exactly one row per item, in
    payload order; a payload of a single item leaves exactly one row,
    whatever the caller owned before.  The answer is the resulting list,
    read back in due-date order. *)
Theorem sync_full_replace (env : Env) (userId : string) (items : list Item)
    (db : Table) (res : Response) (db' : Table) :
  syncAssignments env userId (Some items) db = (res, db') ->
  status res = 200 ->
  exists rows,
    item_rows env userId 0 items = Returned rows /\
    List.length rows = List.length items /\
    (forall k r, nth_error rows k = Some r ->
       exists a, nth_error items k = Some a /\
                 item_row env userId k a = Returned r) /\
    rows_of userId db' = last_wins rows /\
    (NoDup (map Row.id rows) -> rows_of userId db' = rows) /\
    (List.length items = 1 -> List.length (rows_of userId db') = 1) /\
    res = Reply 200
            (ListBody (map (fun r => formatAssignment (Some r))
                           (order_by_due_date (rows_of userId db')))).
Proof.
  intros Hrun Hok. rewrite syncAssignments_eq in Hrun.
  destruct (item_rows env userId 0 items) as [rows | e] eqn:Hrows.
  - cbv zeta in Hrun. inversion Hrun; subst res db'. clear Hrun.
    assert (Hown :
      rows_of userId (fold_left replace_into rows (rows_of_others userId db))
        = last_wins rows).
    { rewrite rows_of_fold_replace by (eapply item_rows_owned, Hrows).
      now rewrite rows_of_rows_of_others. }
    pose proof (item_rows_length _ _ _ _ _ Hrows) as Hlen.
    exists rows. split; [reflexivity |]. split; [exact Hlen |].
    split; [intros k r Hk; exact (item_rows_nth _ _ _ _ _ _ _ Hrows Hk) |].
    split; [exact Hown |].
    split; [intros Hnd; now rewrite Hown, last_wins_distinct |].
    split; [| reflexivity].
    intros H1. rewrite Hown.
    destruct rows as [| r [| r' rows]]; simpl in *; lia.
  - inversion Hrun; subst. discriminate Hok.
Qed.

(** C3.  When the insert of some item of the payload throws, the sync
    answers 500 and the table is what it was before the request: neither
    the delete nor the inserts that preceded the failure are kept. *)
Theorem sync_atomic_on_failure (env : Env) (userId : string)
    (items : list Item) (db : Table) (k : nat) (a : Item) :
  nth_error items k = Some a ->
  (forall r, item_row env userId k a <> Returned r) ->
  syncAssignments env userId (Some items) db =
    (Reply 500 (ErrorBody "Failed to sync assignments"), db).
Proof.
  intros Hk Hfail. rewrite syncAssignments_eq.
  destruct (item_rows_fails env userId items 0 k a Hk Hfail) as (e & ->).
  reflexivity.
Qed.

(** Whatever the payload, a sync that does not answer 200 changes nothing. *)
Lemma sync_failure_keeps_table (env : Env) (userId : string)
    (assignments : option (list Item)) (db : Table) :
  status (fst (syncAssignments env userId assignments db)) <> 200 ->
  snd (syncAssignments env userId assignments db) = db.
Proof.
  destruct assignments as [items |]; [| reflexivity].
  rewrite syncAssignments_eq.
  destruct (item_rows env userId 0 items); [| reflexivity].
  cbn. intros H. now elim H.
Qed.

(** The loop without the transaction around it would leave the delete and
    the first insert behind. *)
Example sync_body_alone_is_partial :
  (statements.deleteAllAssignments "alice" ;;;
   insert_all sample_env "alice" 0 malformed_items) sample_db
  = (Thrown SqliteError,
     [bob_row;
      Row.mk "1714557600000k3j9x0a0" "alice" "Essay" "English" "homework"
             "2024-06-01" None (Some 0%Z)
             (SqlText "2024-05-01T10:00:00.000Z")
             (SqlText "2024-05-01 10:00:00")]).
Proof. vm_compute. reflexivity. Qed.

(** ** The records of a response *)

Lemma formatAssignment_completed (r : Row.t) :
  exists a,
    formatAssignment (Some r) = Some a /\
    Assignment.completed a = JBool (flag_set (Row.completed r)).
Proof. eexists. split; reflexivity. Qed.

Lemma listed_rows_stored (userId : string) (db : Table)
    (o : option Assignment.t) :
  In o (map (fun r => formatAssignment (Some r))
            (order_by_due_date (rows_of userId db))) ->
  exists r, In r db /\ formatAssignment (Some r) = o.
Proof.
  intros H. apply in_map_iff in H. destruct H as (r & Hr & Hin).
  exists r. split; [| exact Hr].
  apply (Permutation_in _ (order_by_due_date_perm _)) in Hin.
  unfold rows_of in Hin. now apply filter_In in Hin.
Qed.

Lemma listAssignments_eq (userId : string) (db : Table) :
  listAssignments userId db =
    (Reply 200
       (ListBody (map (fun r => formatAssignment (Some r))
                      (order_by_due_date (rows_of userId db)))),
     db).
Proof. reflexivity. Qed.

Lemma stored_record_boolean (db : Table) (o : option Assignment.t) :
  (exists r, In r db /\ formatAssignment (Some r) = o) ->
  exists a r,
    o = Some a /\ In r db /\ formatAssignment (Some r) = Some a /\
    Assignment.completed a = JBool (flag_set (Row.completed r)) /\
    is_boolean (Assignment.completed a).
Proof.
  intros (r & Hin & <-).
  destruct (formatAssignment_completed r) as (a & Ha & Hc).
  exists a, r. repeat split; auto. rewrite Hc. now eexists.
Qed.

(** C8.  Every assignment record in the answer of any route is the
    formatting of a stored row, and its [completed] is a boolean: [true]
    exactly when the stored flag is the integer 1.  A create whose request
    has no [completed] answers [completed: false]. *)
Theorem completed_is_boolean (env : Env) (userId : string) (rq : Request)
    (db : Table) :
  (forall o, In o (records (body (fst (handle env userId rq db)))) ->
     exists a r,
       o = Some a /\
       In r (snd (handle env userId rq db)) /\
       formatAssignment (Some r) = Some a /\
       Assignment.completed a = JBool (flag_set (Row.completed r)) /\
       is_boolean (Assignment.completed a))
  /\
  (forall req,
     rq = POST_assignments req -> Body.completed req = JUndefined ->
     status (fst (handle env userId rq db)) = 201 ->
     exists a,
       body (fst (handle env userId rq db)) = RecordBody (Some a) /\
       Assignment.completed a = JBool false).
Proof.
  split.
  - intros o Ho. apply stored_record_boolean.
    destruct rq as [| req | id req | id | [items |]]; cbn [handle] in *.
    + rewrite listAssignments_eq in *. cbn in *.
      now apply listed_rows_stored with (userId := userId).
    + rewrite createAssignment_eq in *.
      destruct (negb (truthy (Body.title req)) || _ || _ || _);
        [contradiction |].
      destruct (new_row _ _ _ _ _ _ _ _ _ _ _) as [r | e];
        [| contradiction].
      destruct (existsb (same_id (Row.id r)) db); [contradiction |].
      cbn in *. destruct Ho as [<- | []].
      exists r. split; [apply in_or_app; right; now left | reflexivity].
    + destruct (find (scoped id userId) db) as [existing |] eqn:Hfind.
      * destruct (updateAssignment_found env userId id req db existing Hfind)
          as [Hfail | (t & s & ty & d & desc & _ & _ & _ & _ & _ & Hrun)].
        -- rewrite Hfail in Ho. contradiction.
        -- cbv zeta in Hrun. rewrite Hrun in *.
           cbn [fst snd body records] in Ho |- *.
           destruct Ho as [<- | []].
           eexists. split; [| reflexivity].
           apply in_map_iff. exists existing.
           apply find_some in Hfind. destruct Hfind as [Hin Hs].
           now rewrite Hs.
      * unfold updateAssignment, try_catch, bind in Ho.
        rewrite getAssignment_text, Hfind in Ho. contradiction.
    + rewrite deleteAssignment_eq in Ho.
      destruct (find (scoped id userId) db); contradiction.
    + rewrite syncAssignments_eq in *.
      destruct (item_rows env userId 0 items); [| contradiction].
      cbn in *. now apply listed_rows_stored with (userId := userId).
    + contradiction.
  - intros req -> Hc. cbn [handle]. rewrite createAssignment_eq.
    destruct (negb (truthy (Body.title req)) || _ || _ || _);
      [discriminate |].
    destruct (new_row _ _ _ _ _ _ _ _ _ _ _) as [r | e] eqn:Hrow;
      [| discriminate].
    destruct (existsb (same_id (Row.id r)) db); [discriminate |].
    intros _. cbn. eexists. split; [reflexivity |]. cbn.
    destruct (new_row_inv _ _ _ _ _ _ _ _ _ _ _ _ Hrow)
      as (_ & _ & _ & _ & _ & _ & _ & Hcompleted & _).
    rewrite Hcompleted, Hc. reflexivity.
Qed.

(** ** Rows of other users *)

Lemma rows_of_others_map (userId : string) (f : Row.t -> Row.t)
    (p : Row.t -> bool) (db : Table) :
  (forall r, p r = true -> owned_by userId r = true) ->
  (forall r, Row.user_id (f r) = Row.user_id r) ->
  rows_of_others userId (map (fun r => if p r then f r else r) db) =
    rows_of_others userId db.
Proof.
  intros Hp Hf. unfold rows_of_others.
  induction db as [| x db IH]; simpl; [reflexivity |].
  destruct (p x) eqn:E.
  - assert (owned_by userId (f x) = true) as ->
        by (unfold owned_by; rewrite Hf; now apply Hp).
    rewrite (Hp x E). exact IH.
  - destruct (owned_by userId x); simpl; now rewrite IH.
Qed.

Lemma scoped_owned (id userId : string) (r : Row.t) :
  scoped id userId r = true -> owned_by userId r = true.
Proof. unfold scoped. now intros H%andb_true_iff. Qed.

Lemma rows_of_others_delete (id userId : string) (db : Table) :
  rows_of_others userId (filter (fun r => negb (scoped id userId r)) db) =
    rows_of_others userId db.
Proof.
  unfold rows_of_others. rewrite filter_filter_and.
  apply filter_ext. intros x. unfold scoped.
  destruct (owned_by userId x); [apply andb_false_r |].
  now rewrite andb_false_r.
Qed.

Lemma rows_of_others_snoc (userId : string) (db : Table) (r : Row.t) :
  Row.user_id r = userId ->
  rows_of_others userId (db ++ [r])%list = rows_of_others userId db.
Proof.
  intros Hu. unfold rows_of_others. rewrite filter_app. simpl.
  assert (owned_by userId r = true) as ->
      by (unfold owned_by; now apply String.eqb_eq).
  apply app_nil_r.
Qed.

(** X18.  List, create, update and delete leave the rows of every other
    user as they were. *)
Lemma single_routes_keep_others (env : Env) (userId : string) (rq : Request)
    (db : Table) :
  (forall assignments, rq <> POST_sync assignments) ->
  rows_of_others userId (snd (handle env userId rq db)) =
    rows_of_others userId db.
Proof.
  intros Hrq.
  destruct rq as [| req | id req | id | assignments]; cbn [handle].
  - reflexivity.
  - rewrite createAssignment_eq.
    destruct (negb (truthy (Body.title req)) || _ || _ || _);
      [reflexivity |].
    destruct (new_row _ _ _ _ _ _ _ _ _ _ _) as [r | e] eqn:Hrow;
      [| reflexivity].
    destruct (existsb (same_id (Row.id r)) db); [reflexivity |].
    cbn [snd]. apply rows_of_others_snoc.
    now destruct (new_row_inv _ _ _ _ _ _ _ _ _ _ _ _ Hrow)
      as (_ & _ & _ & _ & _ & _ & Hu & _).
  - destruct (find (scoped id userId) db) as [existing |] eqn:Hfind.
    + destruct (updateAssignment_found env userId id req db existing Hfind)
        as [-> | (t & s & ty & d & desc & _ & _ & _ & _ & _ & Hrun)];
        [reflexivity |].
      cbv zeta in Hrun. rewrite Hrun. cbn [snd].
      apply rows_of_others_map; [apply scoped_owned | reflexivity].
    + unfold updateAssignment, try_catch, bind.
      now rewrite getAssignment_text, Hfind.
  - rewrite deleteAssignment_eq.
    destruct (find (scoped id userId) db); [| reflexivity].
    apply rows_of_others_delete.
  - now elim (Hrq assignments).
Qed.

(** X19.  An id that belongs to another user is answered like an id that
    does not exist: update and delete answer 404 and change nothing. *)
Lemma foreign_id_not_found (env : Env) (userId id : string) (req : Body.t)
    (db : Table) :
  (forall r, In r db -> Row.id r = id -> Row.user_id r <> userId) ->
  updateAssignment env userId id req db =
    (Reply 404 (ErrorBody "Assignment not found"), db) /\
  deleteAssignment env userId id db =
    (Reply 404 (ErrorBody "Assignment not found"), db).
Proof.
  intros H.
  assert (Hfind : find (scoped id userId) db = None).
  { apply find_scoped_absent. intros r Hin [Hid Hu]. now apply (H r). }
  split.
  - unfold updateAssignment, try_catch, bind.
    now rewrite getAssignment_text, Hfind.
  - now rewrite deleteAssignment_eq, Hfind.
Qed.

Lemma rows_of_others_fold_replace (userId : string) (rows : list Row.t) :
  Forall (fun r => Row.user_id r = userId) rows ->
  forall db,
    rows_of_others userId (fold_left replace_into rows db) =
      filter (fun x => negb (existsb (same_id (Row.id x)) rows))
             (rows_of_others userId db).
Proof.
  induction 1 as [| r rows Hr Hrows IH]; intros db; simpl.
  - symmetry. now apply filter_all.
  - rewrite IH. unfold replace_into.
    rewrite (rows_of_others_snoc _ _ _ Hr).
    unfold rows_of_others. rewrite !filter_filter_and.
    apply filter_ext. intros x. unfold same_id.
    rewrite negb_orb, (String.eqb_sym (Row.id r) (Row.id x)).
    destruct (owned_by userId x), (Row.id x =? Row.id r),
             (existsb (fun r0 => Row.id r0 =? Row.id x) rows); reflexivity.
Qed.

(** X20.  A successful sync keeps the rows of the other users whose id no
    row of the payload takes, and drops the others. *)
Lemma sync_keeps_others_without_collision (env : Env) (userId : string)
    (items : list Item) (db : Table) (rows : list Row.t) :
  item_rows env userId 0 items = Returned rows ->
  rows_of_others userId
    (snd (syncAssignments env userId (Some items) db)) =
    filter (fun x => negb (existsb (same_id (Row.id x)) rows))
           (rows_of_others userId db).
Proof.
  intros Hrows. rewrite syncAssignments_eq, Hrows. cbn [snd].
  rewrite rows_of_others_fold_replace by (eapply item_rows_owned, Hrows).
  f_equal. unfold rows_of_others. rewrite filter_filter_and.
  apply filter_ext. intros x. apply andb_diag.
Qed.

(** C1.  The sync route breaks the isolation of users: Alice syncs one
    item that carries the id of Bob's assignment; the request succeeds,
    Bob's row is gone and the id now names a row of Alice. *)
Theorem sync_replaces_row_of_other_user :
  rows_of "bob" sample_db = [bob_row] /\
  status (fst (syncAssignments sample_env "alice" (Some foreign_id_items)
                               sample_db)) = 200 /\
  rows_of "bob" (snd (syncAssignments sample_env "alice"
                                      (Some foreign_id_items) sample_db))
    = [] /\
  map Row.user_id
      (filter (same_id "b1")
              (snd (syncAssignments sample_env "alice"
                                    (Some foreign_id_items) sample_db)))
    = ["alice"].
Proof. vm_compute. repeat split. Qed.

(** ** The statements at concrete requests *)

(** The scenarios of the specification. *)
Example create_essay_scenario :
  fst (createAssignment sample_env "alice" essay []) =
    Reply 201 (RecordBody (Some
      (Assignment.mk (JStr "1714557600000") (JStr "Essay") (JStr "English")
         (JStr "homework") (JStr "2024-06-01") JNull (JBool false)
         (JStr "2024-05-01 10:00:00") (JStr "2024-05-01 10:00:00")))).
Proof. vm_compute. reflexivity. Qed.

Example sync_two_items_scenario :
  map (fun r => (Row.title r, Row.due_date r))
      (rows_of "alice"
         (snd (syncAssignments sample_env "alice"
                 (Some [ Obj (text_body JUndefined "B" "Maths" "homework"
                                        "2024-06-09");
                         Obj (text_body JUndefined "A" "Maths" "homework"
                                        "2024-06-08") ])
                 [stored "old" "alice" "Old" "2024-01-01" 0])))
    = [("B", "2024-06-09"); ("A", "2024-06-08")]
  /\
  match body (fst (listAssignments "alice"
           (snd (syncAssignments sample_env "alice"
                   (Some [ Obj (text_body JUndefined "B" "Maths" "homework"
                                          "2024-06-09");
                           Obj (text_body JUndefined "A" "Maths" "homework"
                                          "2024-06-08") ])
                   [stored "old" "alice" "Old" "2024-01-01" 0])))) with
  | ListBody l =>
      map (option_map Assignment.title) l = [Some (JStr "A"); Some (JStr "B")]
  | _ => False
  end.
Proof. vm_compute. split; reflexivity. Qed.

Lemma sample_db_pk_unique : pk_unique sample_db.
Proof.
  unfold pk_unique, sample_db. simpl.
  repeat constructor; simpl; intuition discriminate.
Defined.

Lemma bob_row_stored : In bob_row sample_db.
Proof. simpl. auto. Defined.

(** C2, the claim as written fails: a payload of two items that carry the
    same id is accepted and leaves one row, not two. *)
Lemma sync_duplicate_ids_counterexample :
  status (fst (syncAssignments sample_env "alice" (Some duplicate_items)
                               sample_db)) = 200 /\
  List.length duplicate_items = 2 /\
  List.length
    (rows_of "alice"
       (snd (syncAssignments sample_env "alice" (Some duplicate_items)
                             sample_db))) = 1 /\
  List.length
    (rows_of "alice"
       (snd (syncAssignments sample_env "alice" (Some duplicate_items)
                             sample_db))) <> List.length duplicate_items.
Proof. vm_compute. repeat split. discriminate. Qed.


(** Alice owns three assignments and syncs one item: one row is left. *)
Lemma sync_full_replace_witness :
  List.length (rows_of "alice" sample_db) = 3 /\
  status (fst (syncAssignments sample_env "alice" (Some [Obj essay])
                               sample_db)) = 200 /\
  List.length
    (rows_of "alice"
       (snd (syncAssignments sample_env "alice" (Some [Obj essay])
                             sample_db))) = 1.
Proof.
  assert (Hrun :
    syncAssignments sample_env "alice" (Some [Obj essay]) sample_db =
      (fst (syncAssignments sample_env "alice" (Some [Obj essay]) sample_db),
       snd (syncAssignments sample_env "alice" (Some [Obj essay]) sample_db)))
    by (vm_compute; reflexivity).
  assert (Hok :
    status (fst (syncAssignments sample_env "alice" (Some [Obj essay])
                                 sample_db)) = 200) by reflexivity.
  destruct (sync_full_replace _ _ _ _ _ _ Hrun Hok)
    as (rows & _ & _ & _ & _ & _ & Hone & _).
  split; [reflexivity |]. split; [exact Hok |].
  apply Hone. reflexivity.
Defined.

(** The second item of the payload lacks its fields: the table is kept. *)
Lemma sync_atomic_on_failure_witness :
  nth_error malformed_items 1 = Some (Obj empty_body) /\
  item_row sample_env "alice" 1 (Obj empty_body) = Thrown SqliteError /\
  syncAssignments sample_env "alice" (Some malformed_items) sample_db =
    (Reply 500 (ErrorBody "Failed to sync assignments"), sample_db).
Proof.
  split; [reflexivity |]. split; [reflexivity |].
  apply (sync_atomic_on_failure sample_env "alice" malformed_items sample_db
           1 (Obj empty_body)).
  - reflexivity.
  - intros r. vm_compute. discriminate.
Defined.

(** Bob clears [completed] on his assignment and the other fields stay;
    Bob sends new text fields and they are written. *)
Lemma update_partial_merge_witness :
  pk_unique sample_db /\ In bob_row sample_db /\
  fst (updateAssignment sample_env "bob" "b1" (only_completed (JBool false))
                        sample_db) =
    Reply 200 (RecordBody (Some
      (Assignment.mk (JStr "b1") (JStr "Pendulum") (JStr "Physics")
         (JStr "lab") (JStr "2024-06-02") JNull (JBool false)
         (JStr "2024-04-01 09:00:00") (JStr "2024-05-01 10:00:00")))) /\
  fst (updateAssignment sample_env "bob" "b1"
         (text_body JUndefined "Gravity" "Mechanics" "essay" "2024-07-01")
         sample_db) =
    Reply 200 (RecordBody (Some
      (Assignment.mk (JStr "b1") (JStr "Gravity") (JStr "Mechanics")
         (JStr "essay") (JStr "2024-07-01") JNull (JBool true)
         (JStr "2024-04-01 09:00:00") (JStr "2024-05-01 10:00:00")))).
Proof.
  split; [exact sample_db_pk_unique |]. split; [exact bob_row_stored |].
  split.
  - refine (proj1 (proj2 (update_partial_merge sample_env "bob" "b1"
                            (only_completed (JBool false)) sample_db bob_row
                            sample_db_pk_unique bob_row_stored
                            eq_refl eq_refl)) (JBool false) _).
    discriminate.
  - refine (proj2 (proj2 (proj2
              (update_partial_merge sample_env "bob" "b1" empty_body
                 sample_db bob_row sample_db_pk_unique bob_row_stored
                 eq_refl eq_refl)))
              "Gravity" "Mechanics" "essay" "2024-07-01" _ _ _ _);
      discriminate.
Defined.

(** An empty title keeps the stored title; an empty description and
    [completed: false] are written. *)
Lemma update_merge_asymmetry_witness :
  pk_unique sample_db /\ In bob_row sample_db /\
  status (fst (updateAssignment sample_env "bob" "b1" falsy_update
                                sample_db)) = 200 /\
  exists r',
    find (scoped "b1" "bob")
         (snd (updateAssignment sample_env "bob" "b1" falsy_update
                                sample_db)) = Some r' /\
    Row.title r' = "Pendulum" /\
    Row.description r' = Some "" /\
    Row.completed r' = Some 0%Z.
Proof.
  split; [exact sample_db_pk_unique |]. split; [exact bob_row_stored |].
  split; [reflexivity |].
  assert (Hrun :
    updateAssignment sample_env "bob" "b1" falsy_update sample_db =
      (fst (updateAssignment sample_env "bob" "b1" falsy_update sample_db),
       snd (updateAssignment sample_env "bob" "b1" falsy_update sample_db)))
    by (vm_compute; reflexivity).
  destruct (update_merge_asymmetry sample_env "bob" "b1" falsy_update
              sample_db bob_row _ _ sample_db_pk_unique bob_row_stored
              eq_refl eq_refl Hrun eq_refl)
    as (a & r' & _ & Hfind & _ & Htitle & _ & _ & _ & _ & Hdesc & _ & _
        & Hcompleted).
  exists r'. split; [exact Hfind |].
  split; [apply Htitle; reflexivity |].
  split; [apply (Hdesc ""); reflexivity |].
  apply Hcompleted. discriminate.
Defined.

(** The essay of the specification is accepted and stored for Alice. *)
Lemma create_validation_witness :
  text_or_absent (Body.title essay) /\ text_or_absent (Body.subject essay) /\
  text_or_absent (Body.type essay) /\ text_or_absent (Body.dueDate essay) /\
  exists r,
    createAssignment sample_env "alice" essay sample_db =
      (Reply 201 (RecordBody (formatAssignment (Some r))),
       (sample_db ++ [r])%list) /\
    Row.user_id r = "alice" /\
    Row.title r = "Essay" /\
    Row.created_at r = SqlText "2024-05-01 10:00:00".
Proof.
  repeat (split; [exact I |]).
  destruct (proj2 (proj2 (create_validation sample_env "alice" essay
                            sample_db I I I I)) eq_refl)
    as (r & Hrun & Hu & Ht & _ & _ & _ & Hc & _).
  exists r. split; [exact Hrun |]. split; [exact Hu |].
  split; [now inversion Ht | exact Hc].
Defined.


(** Bob deletes his assignment; deleting it again answers 404. *)
Lemma delete_semantics_witness :
  pk_unique sample_db /\ In bob_row sample_db /\
  exists l1 l2,
    sample_db = (l1 ++ bob_row :: l2)%list /\
    deleteAssignment sample_env "bob" "b1" sample_db =
      (Reply 200 SuccessBody, (l1 ++ l2)%list) /\
    deleteAssignment sample_env "bob" "b1" (l1 ++ l2)%list =
      (Reply 404 (ErrorBody "Assignment not found"), (l1 ++ l2)%list).
Proof.
  split; [exact sample_db_pk_unique |]. split; [exact bob_row_stored |].
  exact (proj2 (delete_semantics sample_env "bob" "b1" sample_db)
           sample_db_pk_unique bob_row bob_row_stored eq_refl eq_refl).
Defined.

(** * Further properties of the routes *)

(** ** The table after a sync, in closed form *)

Lemma fold_replace_into (rows : list Row.t) :
  forall db,
    fold_left replace_into rows db =
      (filter (fun x => negb (existsb (same_id (Row.id x)) rows)) db
         ++ last_wins rows)%list.
Proof.
  induction rows as [| r rows IH]; intros db; simpl.
  - rewrite app_nil_r. symmetry. now apply filter_all.
  - rewrite IH. unfold replace_into at 1.
    rewrite filter_app, filter_filter_and, <- app_assoc. f_equal.
    + apply filter_ext. intros x. unfold same_id.
      rewrite negb_orb, (String.eqb_sym (Row.id r) (Row.id x)).
      reflexivity.
    + simpl. now destruct (existsb (same_id (Row.id r)) rows).
Qed.

Lemma last_wins_subset (rows : list Row.t) (r : Row.t) :
  In r (last_wins rows) -> In r rows.
Proof.
  induction rows as [| x rows IH]; simpl; [tauto |].
  destruct (existsb (same_id (Row.id x)) rows); simpl; intuition.
Qed.

Lemma last_wins_ids_unique (rows : list Row.t) : pk_unique (last_wins rows).
Proof.
  unfold pk_unique.
  induction rows as [| x rows IH]; simpl; [constructor |].
  destruct (existsb (same_id (Row.id x)) rows) eqn:E; [exact IH |].
  simpl. constructor; [| exact IH].
  apply same_id_absent in E. intros Hin. apply E.
  apply in_map_iff in Hin. destruct Hin as (y & Hy & Hin).
  rewrite <- Hy. apply in_map. now apply last_wins_subset.
Qed.

Lemma pk_unique_filter (p : Row.t -> bool) (db : Table) :
  pk_unique db -> pk_unique (filter p db).
Proof.
  unfold pk_unique. induction db as [| x db IH]; simpl; intros H; [exact H |].
  inversion H as [| ? ? Hx Hrest]; subst.
  destruct (p x); simpl; [| now apply IH].
  constructor; [| now apply IH].
  intros Hin. apply Hx. apply in_map_iff in Hin.
  destruct Hin as (y & Hy & Hin). apply filter_In in Hin.
  rewrite <- Hy. now apply in_map.
Qed.

Lemma pk_unique_fold_replace (rows : list Row.t) (db : Table) :
  pk_unique db -> pk_unique (fold_left replace_into rows db).
Proof.
  intros Hpk. rewrite fold_replace_into. unfold pk_unique.
  rewrite map_app. apply NoDup_app.
  - now apply pk_unique_filter.
  - apply last_wins_ids_unique.
  - intros id Hl Hr.
    apply in_map_iff in Hl. destruct Hl as (x & Hx & Hin).
    apply filter_In in Hin. destruct Hin as [_ Hnot].
    apply in_map_iff in Hr. destruct Hr as (y & Hy & Hiny).
    apply last_wins_subset in Hiny.
    apply negb_true_iff in Hnot.
    assert (existsb (same_id (Row.id x)) rows = true); [| congruence].
    apply existsb_exists. exists y. split; [exact Hiny |].
    unfold same_id. apply String.eqb_eq. congruence.
Qed.

Lemma map_id_set_columns (p : Row.t -> bool) (f : Row.t -> Row.t)
    (db : Table) :
  (forall r, Row.id (f r) = Row.id r) ->
  map Row.id (map (fun r => if p r then f r else r) db) = map Row.id db.
Proof.
  intros Hf. rewrite map_map. apply map_ext.
  intros r. now destruct (p r).
Qed.

(** X1.  The primary key is an invariant of the routes: when the ids of
    the table are pairwise distinct before a request they are pairwise
    distinct after it, whatever the route, the caller and the payload. *)
Theorem handle_keeps_ids_unique (env : Env) (userId : string) (rq : Request)
    (db : Table) :
  pk_unique db -> pk_unique (snd (handle env userId rq db)).
Proof.
  intros Hpk.
  destruct rq as [| req | id req | id | [items |]]; cbn [handle].
  - exact Hpk.
  - rewrite createAssignment_eq.
    destruct (negb (truthy (Body.title req)) || _ || _ || _); [exact Hpk |].
    destruct (new_row _ _ _ _ _ _ _ _ _ _ _) as [r | e]; [| exact Hpk].
    destruct (existsb (same_id (Row.id r)) db) eqn:E; [exact Hpk |].
    cbn [snd]. apply pk_unique_snoc; [exact Hpk |].
    now apply same_id_absent.
  - destruct (find (scoped id userId) db) as [existing |] eqn:Hfind.
    + destruct (updateAssignment_found env userId id req db existing Hfind)
        as [-> | (t & s & ty & d & desc & _ & _ & _ & _ & _ & Hrun)];
        [exact Hpk |].
      cbv zeta in Hrun. rewrite Hrun. cbn [snd]. unfold pk_unique.
      rewrite map_id_set_columns by reflexivity. exact Hpk.
    + unfold updateAssignment, try_catch, bind.
      rewrite getAssignment_text, Hfind. exact Hpk.
  - rewrite deleteAssignment_eq.
    destruct (find (scoped id userId) db); [| exact Hpk].
    cbn [snd]. now apply pk_unique_filter.
  - rewrite syncAssignments_eq.
    destruct (item_rows env userId 0 items); [| exact Hpk].
    cbn [snd]. apply pk_unique_fold_replace.
    now apply pk_unique_filter.
  - exact Hpk.
Qed.

(** X2.  A request that is not answered 200 or 201 changes nothing: after
    a 400, a 404 or a 500 of any route the table is the table before the
    request. *)
Theorem failed_request_changes_nothing (env : Env) (userId : string)
    (rq : Request) (db : Table) :
  status (fst (handle env userId rq db)) <> 200 ->
  status (fst (handle env userId rq db)) <> 201 ->
  snd (handle env userId rq db) = db.
Proof.
  destruct rq as [| req | id req | id | [items |]]; cbn [handle].
  - reflexivity.
  - rewrite createAssignment_eq.
    destruct (negb (truthy (Body.title req)) || _ || _ || _); [reflexivity |].
    destruct (new_row _ _ _ _ _ _ _ _ _ _ _) as [r | e]; [| reflexivity].
    destruct (existsb (same_id (Row.id r)) db); [reflexivity |].
    cbn. intros _ H. now elim H.
  - destruct (find (scoped id userId) db) as [existing |] eqn:Hfind.
    + destruct (updateAssignment_found env userId id req db existing Hfind)
        as [-> | (t & s & ty & d & desc & _ & _ & _ & _ & _ & Hrun)];
        [reflexivity |].
      cbv zeta in Hrun. rewrite Hrun. cbn. intros H. now elim H.
    + unfold updateAssignment, try_catch, bind.
      now rewrite getAssignment_text, Hfind.
  - rewrite deleteAssignment_eq.
    destruct (find (scoped id userId) db); [| reflexivity].
    cbn. intros H. now elim H.
  - rewrite syncAssignments_eq.
    destruct (item_rows env userId 0 items); [| reflexivity].
    cbn. intros H. now elim H.
  - reflexivity.
Qed.

(** ** Update in place *)

Lemma map_unchanged (A : Type) (p : A -> bool) (f : A -> A) (l : list A) :
  (forall x, In x l -> p x = false) ->
  map (fun x => if p x then f x else x) l = l.
Proof.
  induction l as [| x l IH]; intros H; simpl; [reflexivity |].
  rewrite (H x (or_introl eq_refl)). f_equal. apply IH.
  intros y Hy. apply H. now right.
Qed.

Lemma other_id_scoped_false (id user_id : string) (x : Row.t) :
  Row.id x <> id -> scoped id user_id x = false.
Proof.
  intros H. apply other_id_not_scoped with (user_id := user_id) in H.
  now apply negb_true_iff in H.
Qed.

(** X3.  A successful update rewrites one row where it stands: the rows
    before and after it are untouched, the row keeps its id, its owner and
    its creation time, and no row is added or removed. *)
Theorem update_touches_one_row (env : Env) (userId id : string)
    (req : Body.t) (db : Table) :
  pk_unique db ->
  status (fst (updateAssignment env userId id req db)) = 200 ->
  exists l1 r l2 r',
    db = (l1 ++ r :: l2)%list /\
    snd (updateAssignment env userId id req db) = (l1 ++ r' :: l2)%list /\
    Row.id r = id /\ Row.user_id r = userId /\
    Row.id r' = id /\ Row.user_id r' = userId /\
    Row.created_at r' = Row.created_at r /\
    Row.updated_at r' = SqlText (CURRENT_TIMESTAMP env 0).
Proof.
  intros Hpk Hok.
  destruct (find (scoped id userId) db) as [existing |] eqn:Hfind.
  - destruct (updateAssignment_found env userId id req db existing Hfind)
      as [Hfail | (t & s & ty & d & desc & _ & _ & _ & _ & _ & Hrun)].
    + rewrite Hfail in Hok. discriminate Hok.
    + cbv zeta in Hrun. rewrite Hrun. cbn [snd].
      apply find_some in Hfind. destruct Hfind as [Hin Hs].
      pose proof Hs as Hs'. apply scoped_true in Hs'. destruct Hs' as [Hid Hu].
      destruct (pk_unique_split db existing Hpk Hin)
        as (l1 & l2 & -> & Hother).
      eexists l1, existing, l2, _. split; [reflexivity |]. split.
      * rewrite map_app. simpl. rewrite Hs.
        rewrite !map_unchanged; [reflexivity | |];
          intros x Hx; apply other_id_scoped_false; rewrite <- Hid;
          apply Hother, in_or_app; auto.
      * cbn. repeat split; assumption.
  - exfalso. revert Hok. unfold updateAssignment, try_catch, bind.
    rewrite getAssignment_text, Hfind. discriminate.
Qed.

(** ** Sync, repeated and empty *)

Lemma rows_of_others_last_wins (userId : string) (rows : list Row.t) :
  Forall (fun r => Row.user_id r = userId) rows ->
  rows_of_others userId (last_wins rows) = [].
Proof.
  intros Hown. apply filter_none. intros x Hx.
  apply last_wins_subset in Hx.
  rewrite Forall_forall in Hown. apply negb_false_iff.
  unfold owned_by. apply String.eqb_eq. now apply Hown.
Qed.

Lemma sync_table (env : Env) (userId : string) (items : list Item)
    (rows : list Row.t) (db : Table) :
  item_rows env userId 0 items = Returned rows ->
  snd (syncAssignments env userId (Some items) db) =
    (filter (fun x => negb (existsb (same_id (Row.id x)) rows))
            (rows_of_others userId db)
       ++ last_wins rows)%list.
Proof.
  intros Hrows. rewrite syncAssignments_eq, Hrows. cbn [snd].
  apply fold_replace_into.
Qed.

(** X4.  Sync is idempotent: sending the same sync request again, under
    the same clock and random readings, gives the same answer and leaves
    the whole table as the first request left it. *)
Theorem sync_idempotent (env : Env) (userId : string)
    (assignments : option (list Item)) (db : Table) :
  syncAssignments env userId assignments
    (snd (syncAssignments env userId assignments db)) =
  syncAssignments env userId assignments db.
Proof.
  destruct assignments as [items |]; [| reflexivity].
  destruct (item_rows env userId 0 items) as [rows | e] eqn:Hrows.
  - rewrite (sync_table _ _ _ _ db Hrows).
    rewrite !syncAssignments_eq, Hrows. cbv zeta.
    assert (Hothers :
      rows_of_others userId
        (filter (fun x => negb (existsb (same_id (Row.id x)) rows))
                (rows_of_others userId db) ++ last_wins rows)%list
      = filter (fun x => negb (existsb (same_id (Row.id x)) rows))
               (rows_of_others userId db)).
    { unfold rows_of_others at 1. rewrite filter_app.
      fold (rows_of_others userId (last_wins rows)).
      rewrite rows_of_others_last_wins
        by (eapply item_rows_owned, Hrows).
      rewrite app_nil_r. unfold rows_of_others.
      rewrite !filter_filter_and. apply filter_ext. intros x.
      destruct (owned_by userId x); simpl; [reflexivity |].
      now rewrite andb_true_r. }
    rewrite Hothers, !fold_replace_into, filter_filter_and.
    assert (Hsame :
      filter (fun x =>
                negb (existsb (same_id (Row.id x)) rows)
                && negb (existsb (same_id (Row.id x)) rows))
             (rows_of_others userId db)
      = filter (fun x => negb (existsb (same_id (Row.id x)) rows))
               (rows_of_others userId db))
      by (apply filter_ext; intros x; apply andb_diag).
    now rewrite Hsame.
  - rewrite !syncAssignments_eq, !Hrows. reflexivity.
Qed.

Lemma last_wins_nonempty (rows : list Row.t) :
  last_wins rows = [] -> rows = [].
Proof.
  induction rows as [| r rows IH]; simpl; [reflexivity |].
  destruct (existsb (same_id (Row.id r)) rows) eqn:E; [| discriminate].
  intros H. rewrite (IH H) in E. discriminate E.
Qed.

(** X5.  An empty sync payload is accepted and deletes every assignment of
    the caller, leaving the rows of the other users; and a successful sync
    leaves the caller without assignments only when the payload is
    empty. *)
Theorem sync_empty_payload (env : Env) (userId : string) (db : Table) :
  syncAssignments env userId (Some []) db =
    (Reply 200 (ListBody []), rows_of_others userId db)
  /\
  forall items,
    status (fst (syncAssignments env userId (Some items) db)) = 200 ->
    (rows_of userId (snd (syncAssignments env userId (Some items) db)) = []
     <-> items = []).
Proof.
  split.
  - rewrite syncAssignments_eq. cbn [item_rows fold_left]. cbv zeta.
    now rewrite rows_of_rows_of_others.
  - intros items. rewrite syncAssignments_eq.
    destruct (item_rows env userId 0 items) as [rows | e] eqn:Hrows;
      [| discriminate].
    cbn [fst snd]. intros _.
    rewrite rows_of_fold_replace by (eapply item_rows_owned, Hrows).
    rewrite rows_of_rows_of_others. cbn [filter app].
    pose proof (item_rows_length _ _ _ _ _ Hrows) as Hlen.
    split.
    + intros H. apply last_wins_nonempty in H. subst rows.
      destruct items; [reflexivity | discriminate Hlen].
    + intros ->. cbn in Hrows. inversion Hrows. reflexivity.
Qed.

(** ** Create, then list and delete *)

Lemma createAssignment_created (env : Env) (userId : string) (req : Body.t)
    (db : Table) :
  status (fst (createAssignment env userId req db)) = 201 ->
  exists r,
    new_row env 0 (assignmentId env req) userId (Body.title req)
            (Body.subject req) (Body.type req) (Body.dueDate req)
            (js_or (Body.description req) JNull)
            (if truthy (Body.completed req) then 1 else 0)%Z None
      = Returned r /\
    existsb (same_id (Row.id r)) db = false /\
    createAssignment env userId req db =
      (Reply 201 (RecordBody (formatAssignment (Some r))), (db ++ [r])%list).
Proof.
  rewrite createAssignment_eq.
  destruct (negb (truthy (Body.title req)) || _ || _ || _); [discriminate |].
  destruct (new_row _ _ _ _ _ _ _ _ _ _ _) as [r | e]; [| discriminate].
  destruct (existsb (same_id (Row.id r)) db) eqn:E; [discriminate |].
  intros _. now exists r.
Qed.

(** X6.  What a create stores can be listed and deleted again: after a
    successful create the new record is among the records that the list
    route answers, and deleting its id answers [{ success: true }] and
    gives back the table as it was before the create. *)
Theorem create_then_delete_restores (env env' : Env) (userId : string)
    (req : Body.t) (db : Table) :
  status (fst (createAssignment env userId req db)) = 201 ->
  exists r,
    createAssignment env userId req db =
      (Reply 201 (RecordBody (formatAssignment (Some r))),
       (db ++ [r])%list) /\
    In (formatAssignment (Some r))
       (records (body (fst (listAssignments userId (db ++ [r])%list)))) /\
    deleteAssignment env' userId (Row.id r) (db ++ [r])%list =
      (Reply 200 SuccessBody, db).
Proof.
  intros Hok.
  destruct (createAssignment_created _ _ _ _ Hok) as (r & Hrow & Hnew & Hrun).
  destruct (new_row_inv _ _ _ _ _ _ _ _ _ _ _ _ Hrow)
    as (_ & _ & _ & _ & _ & _ & Hu & _).
  exists r. split; [exact Hrun |]. split.
  - rewrite listAssignments_eq. cbn [fst body records].
    apply (in_map (fun x => formatAssignment (Some x))).
    apply (Permutation_in _ (Permutation_sym (order_by_due_date_perm _))).
    unfold rows_of. apply filter_In. split.
    + apply in_or_app. right. now left.
    + unfold owned_by. now apply String.eqb_eq.
  - rewrite deleteAssignment_eq. subst userId.
    rewrite find_scoped_appended by exact Hnew.
    rewrite filter_app. simpl.
    assert (scoped (Row.id r) (Row.user_id r) r = true) as ->
        by now apply scoped_true.
    simpl. rewrite app_nil_r. apply f_equal. apply filter_all.
    intros x Hx. apply other_id_not_scoped.
    apply same_id_absent in Hnew. intros Heq. apply Hnew.
    rewrite <- Heq. now apply in_map.
Qed.

(** X7.  How a create stores the optional fields: [completed] is stored as
    1 when the request value is truthy and as 0 otherwise; a description
    that is absent, null or empty is stored as NULL, any other string as
    it is; a non-empty string id is stored as it is. *)
Theorem create_stores_optional_fields (env : Env) (userId : string)
    (req : Body.t) (db : Table) :
  status (fst (createAssignment env userId req db)) = 201 ->
  exists r,
    snd (createAssignment env userId req db) = (db ++ [r])%list /\
    Row.completed r =
      Some (if truthy (Body.completed req) then 1 else 0)%Z /\
    (truthy (Body.description req) = false -> Row.description r = None) /\
    (forall s, Body.description req = JStr s -> s <> "" ->
               Row.description r = Some s) /\
    (forall s, Body.id req = JStr s -> s <> "" -> Row.id r = s).
Proof.
  intros Hok.
  destruct (createAssignment_created _ _ _ _ Hok) as (r & Hrow & Hnew & Hrun).
  destruct (new_row_inv _ _ _ _ _ _ _ _ _ _ _ _ Hrow)
    as (Hid & _ & _ & _ & _ & Hdesc & _ & Hc & _).
  exists r. rewrite Hrun. split; [reflexivity |]. split; [exact Hc |].
  split; [| split].
  - intros Hf. rewrite (js_or_falsy _ _ Hf) in Hdesc. cbn in Hdesc.
    congruence.
  - intros s Hs Hne. rewrite Hs in Hdesc. unfold js_or in Hdesc. cbn in Hdesc.
    apply String.eqb_neq in Hne. rewrite Hne in Hdesc. cbn in Hdesc.
    congruence.
  - intros s Hs Hne. unfold assignmentId in Hid. rewrite Hs in Hid.
    unfold js_or in Hid. cbn in Hid.
    apply String.eqb_neq in Hne. rewrite Hne in Hid. cbn in Hid.
    congruence.
Qed.

(** ** Listing, then syncing what was listed *)

(** X8.  A listed record sent back as an item of a sync payload is stored
    again with the same id, title, subject, type, due date, description,
    completed and creation time; only [updatedAt] is new.  This needs a
    non-empty id, a description that is not the empty string (it would
    come back as null) and a creation time the payload hands back
    unchanged. *)
Theorem resync_listed_row (env : Env) (userId : string) (i : nat)
    (r : Row.t) (a : Assignment.t) :
  formatAssignment (Some r) = Some a ->
  Row.id r <> "" ->
  Row.description r <> Some "" ->
  datetime_kept env (Row.created_at r) ->
  exists r',
    item_row env userId i (Obj (as_payload a)) = Returned r' /\
    Row.user_id r' = userId /\
    formatAssignment (Some r') =
      Some (Assignment.mk (Assignment.id a) (Assignment.title a)
              (Assignment.subject a) (Assignment.type a)
              (Assignment.dueDate a) (Assignment.description a)
              (Assignment.completed a) (Assignment.createdAt a)
              (JStr (CURRENT_TIMESTAMP env i))).
Proof.
  intros Hfmt Hid Hdesc Hcreated. cbn in Hfmt. inversion Hfmt; subst a.
  clear Hfmt. unfold item_row, as_payload, new_row. cbn.
  unfold js_or. cbn.
  apply String.eqb_neq in Hid. rewrite Hid. cbn.
  assert (Hd :
    bind_value (if truthy (js_of_text (Row.description r))
                then js_of_text (Row.description r) else JNull)
    = Some (match Row.description r with
            | None => SqlNull | Some s => SqlText s end)).
  { destruct (Row.description r) as [s |]; cbn; [| reflexivity].
    destruct (String.eqb_spec s "") as [-> | Hs]; [now elim Hdesc |].
    reflexivity. }
  rewrite Hd.
  assert (Hc :
    option_map (datetime_affinity env)
      (bind_value (if truthy (js_of_sql (Row.created_at r))
                   then js_of_sql (Row.created_at r)
                   else JStr (toISOString env i)))
    = Some (Row.created_at r)).
  { destruct (Row.created_at r) as [| z | s]; cbn in Hcreated |- *.
    - contradiction.
    - apply Z.eqb_neq in Hcreated. rewrite Hcreated. reflexivity.
    - destruct Hcreated as [Hs Hkeep].
      apply String.eqb_neq in Hs. rewrite Hs. cbn. now rewrite Hkeep. }
  rewrite Hc.
  eexists. split; [reflexivity |]. split; [reflexivity |]. cbn.
  do 2 f_equal.
  - now destruct (Row.description r).
  - destruct (Row.completed r) as [z |]; cbn; [| reflexivity].
    now destruct (z =? 1)%Z.
Qed.

(** ** Answers and the rows of other users *)

Lemma find_scoped_rows_of (id userId : string) (db : Table) :
  find (scoped id userId) (rows_of userId db) = find (scoped id userId) db.
Proof.
  unfold rows_of. induction db as [| x db IH]; simpl; [reflexivity |].
  destruct (owned_by userId x) eqn:E; simpl.
  - now rewrite IH.
  - unfold scoped at 2. rewrite E, andb_false_r. exact IH.
Qed.

Lemma rows_of_idempotent (userId : string) (db : Table) :
  rows_of userId (rows_of userId db) = rows_of userId db.
Proof.
  unfold rows_of. rewrite filter_filter_and.
  apply filter_ext. intros x. apply andb_diag.
Qed.

Lemma update_answer_of_found (env : Env) (userId id : string) (req : Body.t)
    (db1 db2 : Table) (o : option Row.t) :
  find (scoped id userId) db1 = o ->
  find (scoped id userId) db2 = o ->
  fst (updateAssignment env userId id req db1) =
  fst (updateAssignment env userId id req db2).
Proof.
  intros H1 H2.
  unfold updateAssignment, try_catch, bind.
  rewrite !getAssignment_text, H1, H2.
  destruct o as [existing |]; [| reflexivity].
  unfold statements.updateAssignment.
  rewrite (find_scoped_exists _ _ _ _ H1), (find_scoped_exists _ _ _ _ H2).
  destruct (bind_text env (js_or (Body.title req) _)) as [[t |] |];
    try reflexivity;
    destruct (bind_text env (js_or (Body.subject req) _)) as [[s |] |];
    try reflexivity;
    destruct (bind_text env (js_or (Body.type req) _)) as [[ty |] |];
    try reflexivity;
    destruct (bind_text env (js_or (Body.dueDate req) _)) as [[d |] |];
    try reflexivity;
    destruct (bind_text env (if defined (Body.description req) then _ else _))
      as [desc |];
    try reflexivity.
  rewrite !getAssignment_text.
  rewrite !find_scoped_map by (intros r; split; reflexivity).
  rewrite H1, H2. reflexivity.
Qed.

(** X9.  The answers of list, update, delete and sync do not depend on the
    rows of other users: each route answers on the whole table what it
    answers on the caller's rows alone.  (Create is the exception: its
    insert fails on an id that another user holds.) *)
Theorem answers_ignore_other_users (env : Env) (userId : string)
    (rq : Request) (db : Table) :
  (forall req, rq <> POST_assignments req) ->
  fst (handle env userId rq db) = fst (handle env userId rq (rows_of userId db)).
Proof.
  intros Hrq.
  destruct rq as [| req | id req | id | [items |]]; cbn [handle].
  - rewrite !listAssignments_eq. cbn [fst]. now rewrite rows_of_idempotent.
  - now elim (Hrq req).
  - apply update_answer_of_found with (o := find (scoped id userId) db);
      [reflexivity | apply find_scoped_rows_of].
  - rewrite !deleteAssignment_eq, find_scoped_rows_of.
    now destruct (find (scoped id userId) db).
  - rewrite !syncAssignments_eq.
    destruct (item_rows env userId 0 items) as [rows |] eqn:Hrows;
      [| reflexivity].
    cbn [fst].
    rewrite !rows_of_fold_replace by (eapply item_rows_owned, Hrows).
    now rewrite !rows_of_rows_of_others.
  - reflexivity.
Qed.

Lemma handle_new_rows_owned (env : Env) (userId : string) (rq : Request)
    (db : Table) (r : Row.t) :
  In r (snd (handle env userId rq db)) ->
  In r db \/ Row.user_id r = userId.
Proof.
  destruct rq as [| req | id req | id | [items |]]; cbn [handle].
  - auto.
  - rewrite createAssignment_eq.
    destruct (negb (truthy (Body.title req)) || _ || _ || _); [auto |].
    destruct (new_row _ _ _ _ _ _ _ _ _ _ _) as [r' | e] eqn:Hrow; [| auto].
    destruct (existsb (same_id (Row.id r')) db); [auto |].
    cbn [snd]. intros Hin. apply in_app_or in Hin.
    destruct Hin as [Hin | [<- | []]]; [auto |]. right.
    now destruct (new_row_inv _ _ _ _ _ _ _ _ _ _ _ _ Hrow)
      as (_ & _ & _ & _ & _ & _ & Hu & _).
  - destruct (find (scoped id userId) db) as [existing |] eqn:Hfind.
    + destruct (updateAssignment_found env userId id req db existing Hfind)
        as [-> | (t & s & ty & d & desc & _ & _ & _ & _ & _ & Hrun)];
        [auto |].
      cbv zeta in Hrun. rewrite Hrun. cbn [snd]. intros Hin.
      apply in_map_iff in Hin. destruct Hin as (x & Hx & Hin).
      destruct (scoped id userId x) eqn:E; [| subst; auto].
      right. subst r. cbn. now apply scoped_true in E.
    + unfold updateAssignment, try_catch, bind.
      rewrite getAssignment_text, Hfind. auto.
  - rewrite deleteAssignment_eq.
    destruct (find (scoped id userId) db); [| auto].
    cbn [snd]. intros Hin. apply filter_In in Hin. tauto.
  - rewrite syncAssignments_eq.
    destruct (item_rows env userId 0 items) as [rows |] eqn:Hrows; [| auto].
    cbn [snd]. rewrite fold_replace_into. intros Hin.
    apply in_app_or in Hin. destruct Hin as [Hin | Hin].
    + apply filter_In in Hin. destruct Hin as [Hin _].
      unfold rows_of_others in Hin. apply filter_In in Hin. tauto.
    + right. apply last_wins_subset in Hin.
      pose proof (item_rows_owned _ _ _ _ _ Hrows) as Hown.
      rewrite Forall_forall in Hown. now apply Hown.
  - auto.
Qed.

(** ** The users table *)

Lemma upsertUser_thrown (env : Env) (now id : string)
    (email name picture : JsValue) (us us' : list User.t) (e : Error) :
  upsertUser env now id email name picture us = (Thrown e, us') -> us' = us.
Proof.
  unfold upsertUser.
  destruct (bind_text env email) as [[em |] |];
    destruct (bind_text env name); destruct (bind_text env picture);
    try (intros H; inversion H; reflexivity).
  destruct (existsb (has_user_id id) us).
  - destruct (existsb _ us); intros H; inversion H; reflexivity.
  - destruct (existsb _ us); intros H; inversion H; reflexivity.
Qed.

Lemma upsertUser_returned (env : Env) (now id : string)
    (email name picture : JsValue) (us us' : list User.t) (x : unit) :
  upsertUser env now id email name picture us = (Returned x, us') ->
  exists e nm pic,
    bind_text env email = Returned (Some e) /\
    bind_text env name = Returned nm /\
    bind_text env picture = Returned pic /\
    ((existsb (has_user_id id) us = true /\
      existsb (fun u => (User.email u =? e) && negb (has_user_id id u)) us
        = false /\
      us' = map (fun u => if has_user_id id u
                          then User.mk (User.id u) e nm pic
                                       (User.created_at u) now
                          else u) us)
     \/
     (existsb (has_user_id id) us = false /\
      existsb (fun u => User.email u =? e) us = false /\
      us' = (us ++ [User.mk id e nm pic now now])%list)).
Proof.
  unfold upsertUser.
  destruct (bind_text env email) as [[em |] |];
    destruct (bind_text env name) as [nm |];
    destruct (bind_text env picture) as [pic |];
    try discriminate.
  destruct (existsb (has_user_id id) us) eqn:Eid.
  - destruct (existsb (fun u => (User.email u =? em)
                                && negb (has_user_id id u)) us) eqn:Eem;
      intros H; inversion H; subst. exists em, nm, pic.
    repeat (split; [reflexivity |]). left. now repeat split.
  - destruct (existsb (fun u => User.email u =? em) us) eqn:Eem;
      intros H; inversion H; subst. exists em, nm, pic.
    repeat (split; [reflexivity |]). right. now repeat split.
Qed.

Lemma existsb_false_all (A : Type) (p : A -> bool) (l : list A) (x : A) :
  existsb p l = false -> In x l -> p x = false.
Proof.
  intros H Hin. destruct (p x) eqn:E; [| reflexivity].
  assert (existsb p l = true); [| congruence].
  apply existsb_exists. now exists x.
Qed.

Lemma users_email_updated (id e : string) (f : User.t -> User.t)
    (us : list User.t) :
  (forall u, User.id (f u) = User.id u /\ User.email (f u) = e) ->
  NoDup (map User.id us) -> NoDup (map User.email us) ->
  (forall u, In u us -> has_user_id id u = false -> User.email u <> e) ->
  NoDup (map User.email
             (map (fun u => if has_user_id id u then f u else u) us)).
Proof.
  intros Hf. induction us as [| x us IH]; intros Hid Hem Hother; simpl.
  - constructor.
  - inversion Hid as [| ? ? Hx Hids]; subst.
    inversion Hem as [| ? ? Hxe Hems]; subst.
    assert (IH' := IH Hids Hems
                     (fun u Hu => Hother u (or_intror Hu))).
    constructor; [| exact IH'].
    intros Hin. apply in_map_iff in Hin. destruct Hin as (y & Hy & Hin).
    apply in_map_iff in Hin. destruct Hin as (z & Hz & Hin). subst y.
    destruct (has_user_id id x) eqn:Ex; destruct (has_user_id id z) eqn:Ez.
    + unfold has_user_id in Ex, Ez. apply String.eqb_eq in Ex, Ez.
      apply Hx. rewrite Ex, <- Ez. now apply in_map.
    + destruct (Hf x) as [_ Hfe]. rewrite Hfe in Hy.
      now apply (Hother z (or_intror Hin) Ez).
    + destruct (Hf z) as [_ Hfe]. rewrite Hfe in Hy.
      apply (Hother x (or_introl eq_refl) Ex). now symmetry.
    + apply Hxe. rewrite <- Hy. now apply in_map.
Qed.

(** X10.  The upsert keeps the keys of [users]: when ids and emails are
    pairwise distinct before it they are pairwise distinct after it,
    whether it inserted, updated or failed. *)
Theorem upsert_keeps_keys_unique (env : Env) (now id : string)
    (email name picture : JsValue) (us : list User.t) :
  users_unique us ->
  users_unique (snd (upsertUser env now id email name picture us)).
Proof.
  intros [Hid Hem].
  destruct (upsertUser env now id email name picture us) as [[x | e] us']
    eqn:Hrun; cbn [snd].
  - destruct (upsertUser_returned _ _ _ _ _ _ _ _ _ Hrun)
      as (e & nm & pic & _ & _ & _ &
          [(Hhas & Hfree & ->) | (Hhas & Hfree & ->)]).
    + split.
      * rewrite map_map.
        erewrite map_ext; [exact Hid |].
        intros u. now destruct (has_user_id id u).
      * apply (users_email_updated id e); try assumption.
        -- intros u. now split.
        -- intros u Hin Hu Heq.
           pose proof (existsb_false_all _ _ _ u Hfree Hin) as H.
           cbn in H. rewrite Hu in H. cbn in H.
           apply String.eqb_eq in Heq. rewrite Heq in H. discriminate H.
    + split; rewrite map_app; simpl.
      * apply (Permutation_NoDup (l := id :: map User.id us));
          [apply Permutation_cons_append |].
        constructor; [| exact Hid].
        intros Hin. apply in_map_iff in Hin. destruct Hin as (u & Hu & Hin).
        pose proof (existsb_false_all _ _ _ u Hhas Hin) as H.
        unfold has_user_id in H. apply String.eqb_neq in H. congruence.
      * apply (Permutation_NoDup (l := e :: map User.email us));
          [apply Permutation_cons_append |].
        constructor; [| exact Hem].
        intros Hin. apply in_map_iff in Hin. destruct Hin as (u & Hu & Hin).
        pose proof (existsb_false_all _ _ _ u Hfree Hin) as H.
        cbn in H. apply String.eqb_neq in H. congruence.
  - apply upsertUser_thrown in Hrun. subst us'. now split.
Qed.

Lemma getUser_map (id id' : string) (f : User.t -> User.t)
    (us : list User.t) :
  (forall u, User.id (f u) = User.id u) ->
  getUser id' (map (fun u => if has_user_id id u then f u else u) us) =
    option_map (fun u => if has_user_id id u then f u else u)
               (getUser id' us).
Proof.
  intros Hf. unfold getUser.
  induction us as [| x us IH]; simpl; [reflexivity |].
  assert (has_user_id id' (if has_user_id id x then f x else x)
          = has_user_id id' x) as ->.
  { destruct (has_user_id id x); [| reflexivity].
    unfold has_user_id. now rewrite Hf. }
  destruct (has_user_id id' x); [reflexivity | exact IH].
Qed.

Lemma getUser_appended (id' : string) (u : User.t) (us : list User.t) :
  getUser id' (us ++ [u])%list =
    match getUser id' us with
    | Some x => Some x
    | None => if has_user_id id' u then Some u else None
    end.
Proof.
  unfold getUser. induction us as [| x us IH]; simpl.
  - now destruct (has_user_id id' u).
  - destruct (has_user_id id' x); [reflexivity | exact IH].
Qed.

(** X11.  After a successful upsert the user can be looked up by id: the
    row carries the email, name and picture of the upsert and its time as
    [updated_at]; [created_at] is the one the user had before, or the time
    of the upsert for a new user; and the lookup of every other id gives
    what it gave before. *)
Theorem upsert_then_getUser (env : Env) (now id : string)
    (email name picture : JsValue) (us us' : list User.t) (x : unit) :
  upsertUser env now id email name picture us = (Returned x, us') ->
  (exists u,
     getUser id us' = Some u /\
     User.id u = id /\
     bind_text env email = Returned (Some (User.email u)) /\
     bind_text env name = Returned (User.name u) /\
     bind_text env picture = Returned (User.picture u) /\
     User.updated_at u = now /\
     User.created_at u =
       match getUser id us with
       | Some old => User.created_at old
       | None => now
       end)
  /\
  (forall id', id' <> id -> getUser id' us' = getUser id' us).
Proof.
  intros Hrun.
  destruct (upsertUser_returned _ _ _ _ _ _ _ _ _ Hrun)
    as (e & nm & pic & He & Hnm & Hpic &
        [(Hhas & Hfree & ->) | (Hhas & Hfree & ->)]).
  - split.
    + rewrite getUser_map by reflexivity.
      destruct (getUser id us) as [old |] eqn:Hold.
      * pose proof Hold as Hold'. unfold getUser in Hold'.
        apply find_some in Hold'. destruct Hold' as [_ Hmatch].
        cbn [option_map]. rewrite Hmatch.
        eexists. split; [reflexivity |]. cbn.
        unfold has_user_id in Hmatch. apply String.eqb_eq in Hmatch.
        repeat split; auto.
      * exfalso. apply existsb_exists in Hhas.
        destruct Hhas as (u & Hin & Hu).
        unfold getUser in Hold.
        now rewrite (find_none _ _ Hold u Hin) in Hu.
    + intros id' Hne. rewrite getUser_map by reflexivity.
      destruct (getUser id' us) as [u |] eqn:Hu; [| reflexivity].
      pose proof Hu as Hu'. unfold getUser in Hu'.
      apply find_some in Hu'. destruct Hu' as [_ Hmatch].
      unfold has_user_id in Hmatch. apply String.eqb_eq in Hmatch.
      cbn [option_map]. unfold has_user_id.
      assert ((User.id u =? id) = false) as ->
          by (apply String.eqb_neq; congruence).
      reflexivity.
  - assert (Hnone : getUser id us = None).
    { unfold getUser. destruct (find (has_user_id id) us) eqn:E;
        [| reflexivity].
      apply find_some in E. destruct E as [Hin Hm].
      now rewrite (existsb_false_all _ _ _ _ Hhas Hin) in Hm. }
    split.
    + rewrite getUser_appended, Hnone.
      unfold has_user_id at 1. cbn. rewrite String.eqb_refl.
      eexists. split; [reflexivity |]. cbn. repeat split; auto.
    + intros id' Hne. rewrite getUser_appended.
      destruct (getUser id' us); [reflexivity |].
      unfold has_user_id. cbn.
      assert ((id =? id') = false) as ->
          by (apply String.eqb_neq; congruence).
      reflexivity.
Qed.

(** ** The authentication middleware *)

Lemma prefix_app (p x : string) : String.prefix p (p ++ x) = true.
Proof.
  induction p as [| a p IH]; simpl.
  - now destruct x.
  - destruct (ascii_dec a a) as [_ | Hne]; [exact IH | now elim Hne].
Qed.

Lemma startsWith_truthy (h p : string) :
  p <> "" -> startsWith h p = true -> truthy (JStr h) = true.
Proof.
  intros Hp. unfold startsWith. destruct h; [| reflexivity].
  destruct p; [now elim Hp | discriminate].
Qed.

Lemma verifyGoogleToken_presented (env : Env) (auth : Auth) (h : string)
    (payload : Token.t) (next : string -> Store -> Answer * Store)
    (st : Store) :
  presents auth h payload ->
  verifyGoogleToken env auth (Some h) next st =
    match upsertUser env (upsert_timestamp auth) (Token.sub payload)
            (Token.email payload) (Token.name payload)
            (Token.picture payload) (users st) with
    | (Thrown _, _) => (Unauthorized "Invalid token", st)
    | (Returned _, users') =>
        next (Token.sub payload)
             {| users := users'; assignments := assignments st |}
    end.
Proof.
  intros (Hstart & token & Htoken & Hverify).
  unfold verifyGoogleToken.
  rewrite (startsWith_truthy h "Bearer ") by (discriminate || exact Hstart).
  rewrite Hstart. cbn [negb orb]. now rewrite Htoken, Hverify.
Qed.

Lemma route_answer_not_unauthorized (env : Env) (route : Route)
    (userId : string) (st : Store) (msg : string) :
  fst (match route with
       | GET_me => (UserJson (getUser userId (users st)), st)
       | Assignments rq =>
           let (res, db') := handle env userId rq (assignments st) in
           (Routed res, {| users := users st; assignments := db' |})
       end) <> Unauthorized msg.
Proof.
  destruct route as [| rq]; [discriminate |].
  destruct (handle env userId rq (assignments st)). discriminate.
Qed.

(** X12.  A request answered 401 leaves the store as it was: neither the
    users nor the assignments change, and the message is one of the two
    the middleware sends. *)
Theorem unauthorized_changes_nothing (env : Env) (auth : Auth)
    (authorization : option string) (route : Route) (st st' : Store)
    (msg : string) :
  serve env auth authorization route st = (Unauthorized msg, st') ->
  st' = st /\ (msg = "No token provided" \/ msg = "Invalid token").
Proof.
  unfold serve, verifyGoogleToken.
  destruct authorization as [h |];
    [| intros H; inversion H; auto].
  destruct (negb (truthy (JStr h)) || negb (startsWith h "Bearer "));
    [intros H; inversion H; auto |].
  destruct (nth_error (split_spaces h) 1) as [token |];
    [| intros H; inversion H; auto].
  destruct (verifyIdToken auth token) as [payload |];
    [| intros H; inversion H; auto].
  destruct (upsertUser _ _ _ _ _ _ _) as [[x | e] us'];
    [| intros H; inversion H; auto].
  intros H. exfalso.
  eapply (route_answer_not_unauthorized env route). now rewrite H.
Qed.

(** X13.  The answer is 401 "No token provided" exactly when the request
    has no Authorization header or the header does not start with
    "Bearer ". *)
Theorem no_token_provided_iff (env : Env) (auth : Auth)
    (authorization : option string) (route : Route) (st : Store) :
  fst (serve env auth authorization route st) =
    Unauthorized "No token provided"
  <-> authorization = None \/
      exists h, authorization = Some h /\ startsWith h "Bearer " = false.
Proof.
  unfold serve, verifyGoogleToken.
  destruct authorization as [h |]; [| cbn; split; auto].
  destruct (startsWith h "Bearer ") eqn:Hstart.
  - rewrite (startsWith_truthy h "Bearer ") by (discriminate || exact Hstart).
    cbn [negb orb]. split.
    + intros H. exfalso. revert H.
      destruct (nth_error (split_spaces h) 1) as [token |]; [| discriminate].
      destruct (verifyIdToken auth token) as [payload |]; [| discriminate].
      destruct (upsertUser _ _ _ _ _ _ _) as [[x | e] us']; [| discriminate].
      apply route_answer_not_unauthorized.
    + intros [H | (h' & H & Hfalse)]; [discriminate |].
      inversion H; subst. congruence.
  - rewrite orb_true_r. cbn. split; [| reflexivity].
    intros _. right. now exists h.
Qed.

Lemma split_spaces_no_space (t : string) :
  no_space t -> split_spaces t = [t].
Proof.
  induction t as [| c t IH]; intros H; simpl; [reflexivity |].
  assert (Ascii.eqb c " " = false) as ->.
  { apply Ascii.eqb_neq. apply H. simpl. now left. }
  rewrite IH; [reflexivity |].
  intros c' Hc'. apply H. simpl. now right.
Qed.

Lemma split_spaces_word (t rest : string) :
  no_space t -> split_spaces (t ++ " " ++ rest) = t :: split_spaces rest.
Proof.
  induction t as [| c t IH]; intros H; simpl; [reflexivity |].
  assert (Ascii.eqb c " " = false) as ->.
  { apply Ascii.eqb_neq. apply H. simpl. now left. }
  simpl in IH. rewrite IH; [reflexivity |].
  intros c' Hc'. apply H. simpl. now right.
Qed.

(** X14.  The token handed to the provider is the second word of the
    header: for a token without spaces, whatever follows it after a space
    is ignored, and when the provider rejects the token the answer is 401
    "Invalid token" with the store unchanged. *)
Theorem bearer_token_is_second_word (env : Env) (auth : Auth) (t : string)
    (route : Route) (st : Store) :
  no_space t ->
  (forall rest,
     serve env auth (Some ("Bearer " ++ t ++ " " ++ rest)) route st =
     serve env auth (Some ("Bearer " ++ t)) route st)
  /\
  (verifyIdToken auth t = None ->
   serve env auth (Some ("Bearer " ++ t)) route st =
     (Unauthorized "Invalid token", st)).
Proof.
  intros Ht.
  assert (Hone : forall x,
            nth_error (split_spaces ("Bearer " ++ x)) 1 =
            nth_error (split_spaces x) 0).
  { intros x. cbn. now destruct (split_spaces x). }
  assert (Hhead : forall x,
            negb (truthy (JStr ("Bearer " ++ x)))
            || negb (startsWith ("Bearer " ++ x) "Bearer ") = false).
  { intros x. unfold startsWith. now rewrite prefix_app. }
  split.
  - intros rest. unfold serve, verifyGoogleToken.
    rewrite !Hhead, !Hone.
    now rewrite (split_spaces_word t rest Ht), (split_spaces_no_space t Ht).
  - intros Hreject. unfold serve, verifyGoogleToken.
    rewrite Hhead, Hone, (split_spaces_no_space t Ht). cbn [nth_error].
    now rewrite Hreject.
Qed.

Lemma serve_presented (env : Env) (auth : Auth) (h : string)
    (payload : Token.t) (route : Route) (st : Store) :
  presents auth h payload ->
  serve env auth (Some h) route st =
    match upsertUser env (upsert_timestamp auth) (Token.sub payload)
            (Token.email payload) (Token.name payload)
            (Token.picture payload) (users st) with
    | (Thrown _, _) => (Unauthorized "Invalid token", st)
    | (Returned _, users') =>
        match route with
        | GET_me => (UserJson (getUser (Token.sub payload) users'),
                     {| users := users'; assignments := assignments st |})
        | Assignments rq =>
            let (res, db') :=
              handle env (Token.sub payload) rq (assignments st) in
            (Routed res, {| users := users'; assignments := db' |})
        end
    end.
Proof.
  intros Hp. unfold serve.
  rewrite (verifyGoogleToken_presented _ _ _ _ _ _ Hp).
  destruct (upsertUser _ _ _ _ _ _ _) as [[x | e] us']; [| reflexivity].
  now destruct route.
Qed.

(** X15.  A token that the provider verifies is still answered 401
    "Invalid token", with the store unchanged, when the upsert of the
    caller fails: the email of the token is held by another user (UNIQUE),
    or the token carries no email, null or undefined (NOT NULL).  A missing
    name or picture does not fail: it is stored as NULL. *)
Theorem verified_token_rejected_when_upsert_fails (env : Env) (auth : Auth)
    (h : string) (payload : Token.t) (route : Route) (st : Store) :
  presents auth h payload ->
  (exists u, In u (users st) /\ User.id u <> Token.sub payload /\
             Token.email payload = JStr (User.email u))
  \/ Token.email payload = JNull
  \/ Token.email payload = JUndefined ->
  serve env auth (Some h) route st = (Unauthorized "Invalid token", st).
Proof.
  intros Hp Hfail. rewrite (serve_presented _ _ _ _ _ _ Hp).
  assert (Hthrown : exists e us',
            upsertUser env (upsert_timestamp auth) (Token.sub payload)
              (Token.email payload) (Token.name payload)
              (Token.picture payload) (users st) = (Thrown e, us')).
  { unfold upsertUser.
    destruct Hfail as [(u & Hin & Hid & Hem) | [Hem | Hem]].
    - rewrite Hem. cbn [bind_text bind_value text_affinity].
      destruct (bind_text env (Token.name payload));
        destruct (bind_text env (Token.picture payload));
        try (eexists; eexists; reflexivity).
      assert (Hother :
        existsb (fun x => (User.email x =? User.email u)
                          && negb (has_user_id (Token.sub payload) x))
                (users st) = true).
      { apply existsb_exists. exists u. split; [exact Hin |].
        rewrite String.eqb_refl. unfold has_user_id.
        apply String.eqb_neq in Hid. now rewrite Hid. }
      assert (Hany :
        existsb (fun x => User.email x =? User.email u) (users st) = true).
      { apply existsb_exists. exists u. split; [exact Hin |].
        apply String.eqb_refl. }
      rewrite Hother, Hany.
      destruct (existsb (has_user_id (Token.sub payload)) (users st));
        eexists; eexists; reflexivity.
    - rewrite Hem. cbn [bind_text bind_value text_affinity].
      destruct (bind_text env (Token.name payload));
        destruct (bind_text env (Token.picture payload));
        eexists; eexists; reflexivity.
    - rewrite Hem. cbn [bind_text bind_value text_affinity].
      destruct (bind_text env (Token.name payload));
        destruct (bind_text env (Token.picture payload));
        eexists; eexists; reflexivity. }
  destruct Hthrown as (e & us' & ->). reflexivity.
Qed.

(** A token without name and picture is accepted: the upsert stores NULL
    in both columns. *)
Example upsert_without_name_and_picture :
  upsertUser sample_env "2024-05-01 09:59:59" "dave"
             (JStr "dave@example.org") JUndefined JUndefined [] =
    (Returned tt,
     [User.mk "dave" "dave@example.org" None None
              "2024-05-01 09:59:59" "2024-05-01 09:59:59"]).
Proof. reflexivity. Qed.

Lemma upsert_keeps_users (env : Env) (now id : string)
    (email name picture : JsValue) (us us' : list User.t) (x : unit) :
  upsertUser env now id email name picture us = (Returned x, us') ->
  (forall u, In u us -> exists u', In u' us' /\ User.id u' = User.id u) /\
  (exists u', In u' us' /\ User.id u' = id).
Proof.
  intros Hrun.
  destruct (upsertUser_returned _ _ _ _ _ _ _ _ _ Hrun)
    as (e & nm & pic & _ & _ & _ &
        [(Hhas & _ & ->) | (Hhas & _ & ->)]).
  - assert (Hkept : forall u, In u us ->
              exists u',
                In u' (map (fun v => if has_user_id id v
                                     then User.mk (User.id v) e nm pic
                                                  (User.created_at v) now
                                     else v) us) /\
                User.id u' = User.id u).
    { intros u Hin. eexists. split; [apply in_map, Hin |].
      now destruct (has_user_id id u). }
    split; [exact Hkept |].
    apply existsb_exists in Hhas. destruct Hhas as (u & Hin & Hu).
    destruct (Hkept u Hin) as (u' & Hin' & Hid).
    exists u'. split; [exact Hin' |].
    unfold has_user_id in Hu. apply String.eqb_eq in Hu. congruence.
  - split.
    + intros u Hin. exists u. split; [| reflexivity].
      apply in_or_app. now left.
    + eexists. split; [apply in_or_app; right; now left | reflexivity].
Qed.

(** X16.  Upsert before use: when every assignment belongs to a user of
    [users] before a request it does after it, whatever the header, the
    route and the payload.  No request leaves an assignment whose owner
    has no user row. *)
Theorem serve_keeps_owners_known (env : Env) (auth : Auth)
    (authorization : option string) (route : Route) (st : Store) :
  owners_known st ->
  owners_known (snd (serve env auth authorization route st)).
Proof.
  intros Hknown.
  unfold serve, verifyGoogleToken.
  destruct authorization as [h |]; [| exact Hknown].
  destruct (negb (truthy (JStr h)) || negb (startsWith h "Bearer "));
    [exact Hknown |].
  destruct (nth_error (split_spaces h) 1) as [token |]; [| exact Hknown].
  destruct (verifyIdToken auth token) as [payload |]; [| exact Hknown].
  destruct (upsertUser _ _ _ _ _ _ _) as [[x | e] us'] eqn:Hrun;
    [| exact Hknown].
  destruct (upsert_keeps_users _ _ _ _ _ _ _ _ _ Hrun) as [Hkept Hcaller].
  destruct route as [| rq].
  - intros r Hin. cbn in Hin |- *.
    destruct (Hknown r Hin) as (u & Hu & Hid).
    destruct (Hkept u Hu) as (u' & Hu' & Hid').
    exists u'. split; [exact Hu' | congruence].
  - cbn [users assignments].
    destruct (handle env (Token.sub payload) rq (assignments st))
      as [res db'] eqn:Hh.
    intros r Hin. cbn in Hin |- *.
    assert (Hin' : In r (snd (handle env (Token.sub payload) rq
                                     (assignments st))))
      by now rewrite Hh.
    destruct (handle_new_rows_owned _ _ _ _ _ Hin') as [Hold | Hnew].
    + destruct (Hknown r Hold) as (u & Hu & Hid).
      destruct (Hkept u Hu) as (u' & Hu' & Hid').
      exists u'. split; [exact Hu' | congruence].
    + destruct Hcaller as (u' & Hu' & Hid').
      exists u'. split; [exact Hu' | congruence].
Qed.

Lemma upsert_lookup (env : Env) (now id : string)
    (email name picture : JsValue) (us us' : list User.t) (x : unit) :
  upsertUser env now id email name picture us = (Returned x, us') ->
  exists u,
    getUser id us' = Some u /\ User.id u = id /\
    bind_text env email = Returned (Some (User.email u)).
Proof.
  intros Hrun.
  destruct (upsertUser_returned _ _ _ _ _ _ _ _ _ Hrun)
    as (e & nm & pic & He & _ & _ &
        [(Hhas & _ & ->) | (Hhas & _ & ->)]).
  - rewrite getUser_map by reflexivity.
    apply existsb_exists in Hhas. destruct Hhas as (u0 & Hin & Hu0).
    destruct (getUser id us) as [old |] eqn:Hold.
    + unfold getUser in Hold. apply find_some in Hold.
      destruct Hold as [_ Hmatch]. cbn [option_map]. rewrite Hmatch.
      eexists. split; [reflexivity |]. cbn.
      unfold has_user_id in Hmatch. apply String.eqb_eq in Hmatch. auto.
    + unfold getUser in Hold.
      now rewrite (find_none _ _ Hold u0 Hin) in Hu0.
  - rewrite getUser_appended.
    destruct (getUser id us) as [old |] eqn:Hold.
    + unfold getUser in Hold. apply find_some in Hold.
      destruct Hold as [Hin Hmatch].
      now rewrite (existsb_false_all _ _ _ _ Hhas Hin) in Hmatch.
    + unfold has_user_id. cbn. rewrite String.eqb_refl.
      eexists. split; [reflexivity |]. cbn. auto.
Qed.

(** X17.  GET /api/me never answers null: when it answers a user at all,
    the request carried a verified token, the answer is the stored row of
    the identity of the token with the email of the token, and the
    assignments are untouched. *)
Theorem me_answers_caller_row (env : Env) (auth : Auth)
    (authorization : option string) (st st' : Store)
    (user : option User.t) :
  serve env auth authorization GET_me st = (UserJson user, st') ->
  exists h payload u,
    authorization = Some h /\ presents auth h payload /\
    user = Some u /\ getUser (Token.sub payload) (users st') = Some u /\
    User.id u = Token.sub payload /\
    bind_text env (Token.email payload) = Returned (Some (User.email u)) /\
    assignments st' = assignments st.
Proof.
  unfold serve, verifyGoogleToken.
  destruct authorization as [h |]; [| discriminate].
  destruct (truthy (JStr h)); [| discriminate].
  destruct (startsWith h "Bearer ") eqn:Hstart; [| discriminate].
  cbn [negb orb].
  destruct (nth_error (split_spaces h) 1) as [token |] eqn:Htoken;
    [| discriminate].
  destruct (verifyIdToken auth token) as [payload |] eqn:Hverify;
    [| discriminate].
  destruct (upsertUser _ _ _ _ _ _ _) as [[x | e] us'] eqn:Hrun;
    [| discriminate].
  intros H. inversion H; subst. clear H. cbn [users assignments].
  destruct (upsert_lookup _ _ _ _ _ _ _ _ _ Hrun) as (u & Hget & Hid & Hem).
  exists h, payload, u. split; [reflexivity |].
  split; [split; [exact Hstart | now exists token] |].
  repeat split; assumption.
Qed.

(** ** The further properties at concrete requests *)

Lemma sample_users_unique : users_unique sample_users.
Proof.
  unfold users_unique, sample_users. simpl.
  split; repeat constructor; simpl; intuition discriminate.
Defined.

Lemma sample_store_owners_known : owners_known sample_store.
Proof.
  intros r Hin. simpl in Hin.
  destruct Hin as [<- | [<- | [<- | [<- | []]]]]; cbn;
    first
      [ exists (User.mk "alice" "alice@example.org" (Some "Al") None
                        "2024-01-01 00:00:00" "2024-01-01 00:00:00");
        split; [simpl; auto | reflexivity]
      | exists (User.mk "bob" "bob@example.org" (Some "Bob") None
                        "2024-01-02 00:00:00" "2024-01-02 00:00:00");
        split; [simpl; auto | reflexivity] ].
Defined.

Lemma alice_token_no_space : no_space "alice-token".
Proof.
  intros c Hin. simpl in Hin.
  repeat (destruct Hin as [<- | Hin]; [discriminate |]).
  contradiction.
Defined.

(** Alice's sync with Bob's id keeps the ids of the table distinct. *)
Lemma handle_keeps_ids_unique_witness :
  pk_unique sample_db /\
  pk_unique (snd (handle sample_env "alice"
                         (POST_sync (Some foreign_id_items)) sample_db)).
Proof.
  split; [exact sample_db_pk_unique |].
  apply handle_keeps_ids_unique. exact sample_db_pk_unique.
Defined.

(** Alice's refused create leaves the table as it was. *)
Lemma failed_request_changes_nothing_witness :
  status (fst (handle sample_env "alice" (POST_assignments foreign_id_body)
                      sample_db)) = 500 /\
  snd (handle sample_env "alice" (POST_assignments foreign_id_body)
              sample_db) = sample_db.
Proof.
  split; [reflexivity |].
  apply failed_request_changes_nothing; vm_compute; discriminate.
Defined.

(** Bob's update rewrites his row between Alice's rows. *)
Lemma update_touches_one_row_witness :
  pk_unique sample_db /\
  status (fst (updateAssignment sample_env "bob" "b1" falsy_update
                                sample_db)) = 200 /\
  exists l1 r l2 r',
    sample_db = (l1 ++ r :: l2)%list /\
    snd (updateAssignment sample_env "bob" "b1" falsy_update sample_db) =
      (l1 ++ r' :: l2)%list /\
    Row.created_at r' = Row.created_at r.
Proof.
  split; [exact sample_db_pk_unique |]. split; [reflexivity |].
  destruct (update_touches_one_row sample_env "bob" "b1" falsy_update
              sample_db sample_db_pk_unique eq_refl)
    as (l1 & r & l2 & r' & Hdb & Hdb' & _ & _ & _ & _ & Hcreated & _).
  exists l1, r, l2, r'. repeat split; assumption.
Defined.

(** Alice creates the essay and deletes it again. *)
Lemma create_then_delete_restores_witness :
  status (fst (createAssignment sample_env "alice" essay sample_db)) = 201 /\
  exists r,
    deleteAssignment sample_env "alice" (Row.id r) (sample_db ++ [r])%list =
      (Reply 200 SuccessBody, sample_db).
Proof.
  split; [reflexivity |].
  destruct (create_then_delete_restores sample_env sample_env "alice" essay
              sample_db eq_refl) as (r & _ & _ & Hdelete).
  exists r. exact Hdelete.
Defined.

(** An empty description is stored as NULL and the number 7 as 1. *)
Lemma create_stores_optional_fields_witness :
  status (fst (createAssignment sample_env "alice" optional_fields_body
                                sample_db)) = 201 /\
  exists r,
    snd (createAssignment sample_env "alice" optional_fields_body sample_db)
      = (sample_db ++ [r])%list /\
    Row.completed r = Some 1%Z /\
    Row.description r = None /\
    Row.id r = "n1".
Proof.
  split; [reflexivity |].
  destruct (create_stores_optional_fields sample_env "alice"
              optional_fields_body sample_db eq_refl)
    as (r & Hdb & Hc & Hnull & _ & Hid).
  exists r. split; [exact Hdb |]. split; [exact Hc |].
  split; [apply Hnull; reflexivity |].
  apply Hid; [reflexivity | discriminate].
Defined.

(** Bob's listed record, synced back, is stored with the same fields. *)
Lemma resync_listed_row_witness :
  formatAssignment (Some bob_row) = Some bob_record /\
  datetime_kept sample_env (Row.created_at bob_row) /\
  exists r',
    item_row sample_env "bob" 0 (Obj (as_payload bob_record)) = Returned r' /\
    Row.user_id r' = "bob" /\
    formatAssignment (Some r') =
      Some (Assignment.mk (JStr "b1") (JStr "Pendulum") (JStr "Physics")
              (JStr "lab") (JStr "2024-06-02") JNull (JBool true)
              (JStr "2024-04-01 09:00:00") (JStr "2024-05-01 10:00:00")).
Proof.
  assert (Hkept : datetime_kept sample_env (Row.created_at bob_row))
    by (split; [discriminate | reflexivity]).
  split; [reflexivity |]. split; [exact Hkept |].
  refine (resync_listed_row sample_env "bob" 0 bob_row bob_record
            eq_refl _ _ Hkept); discriminate.
Defined.

(** Alice's update of Bob's id is answered as on her rows alone. *)
Lemma answers_ignore_other_users_witness :
  (forall req, PUT_assignment "b1" empty_body <> POST_assignments req) /\
  fst (handle sample_env "alice" (PUT_assignment "b1" empty_body) sample_db)
  = fst (handle sample_env "alice" (PUT_assignment "b1" empty_body)
                (rows_of "alice" sample_db)).
Proof.
  assert (H : forall req,
            PUT_assignment "b1" empty_body <> POST_assignments req)
    by (intros req; discriminate).
  split; [exact H |].
  exact (answers_ignore_other_users sample_env "alice"
           (PUT_assignment "b1" empty_body) sample_db H).
Defined.

(** A first login of Carol keeps ids and emails distinct. *)
Lemma upsert_keeps_keys_unique_witness :
  users_unique sample_users /\
  users_unique
    (snd (upsertUser sample_env "2024-05-01 09:59:59" "carol"
                     (JStr "carol@example.org") JNull JNull sample_users)).
Proof.
  split; [exact sample_users_unique |].
  apply upsert_keeps_keys_unique. exact sample_users_unique.
Defined.

(** Alice logs in with a new email; her creation time is kept. *)
Lemma upsert_then_getUser_witness :
  exists u,
    getUser "alice"
      (snd (upsertUser sample_env "2024-05-01 09:59:59" "alice"
                       (JStr "new@example.org") (JStr "Alice") JNull
                       sample_users)) = Some u /\
    User.created_at u = "2024-01-01 00:00:00" /\
    User.updated_at u = "2024-05-01 09:59:59" /\
    getUser "bob"
      (snd (upsertUser sample_env "2024-05-01 09:59:59" "alice"
                       (JStr "new@example.org") (JStr "Alice") JNull
                       sample_users)) = getUser "bob" sample_users.
Proof.
  assert (Hrun :
    upsertUser sample_env "2024-05-01 09:59:59" "alice"
               (JStr "new@example.org") (JStr "Alice") JNull sample_users =
    (Returned tt,
     snd (upsertUser sample_env "2024-05-01 09:59:59" "alice"
                     (JStr "new@example.org") (JStr "Alice") JNull
                     sample_users)))
    by (vm_compute; reflexivity).
  destruct (upsert_then_getUser _ _ _ _ _ _ _ _ _ Hrun)
    as [(u & Hget & _ & _ & _ & _ & Hup & Hcr) Hothers].
  exists u. split; [exact Hget |]. split; [exact Hcr |].
  split; [exact Hup |]. apply Hothers. discriminate.
Defined.

(** An unknown token is refused and nothing is stored. *)
Lemma unauthorized_changes_nothing_witness :
  serve sample_env sample_auth (Some "Bearer nobody") GET_me sample_store =
    (Unauthorized "Invalid token", sample_store) /\
  sample_store = sample_store /\
  ("Invalid token" = "No token provided" \/
   "Invalid token" = "Invalid token").
Proof.
  split; [reflexivity |].
  exact (unauthorized_changes_nothing sample_env sample_auth
           (Some "Bearer nobody") GET_me sample_store sample_store
           "Invalid token" eq_refl).
Defined.

(** Words after the token are ignored. *)
Lemma bearer_token_is_second_word_witness :
  no_space "alice-token" /\
  serve sample_env sample_auth (Some "Bearer alice-token and more") GET_me
        sample_store =
  serve sample_env sample_auth (Some "Bearer alice-token") GET_me
        sample_store.
Proof.
  split; [exact alice_token_no_space |].
  exact (proj1 (bearer_token_is_second_word sample_env sample_auth
                  "alice-token" GET_me sample_store alice_token_no_space)
           "and more").
Defined.

(** Carol's verified token carries Alice's email: she is refused. *)
Lemma verified_token_rejected_when_upsert_fails_witness :
  presents sample_auth "Bearer carol-token" carol_payload /\
  serve sample_env sample_auth (Some "Bearer carol-token")
        (Assignments GET_assignments) sample_store =
    (Unauthorized "Invalid token", sample_store).
Proof.
  assert (Hp : presents sample_auth "Bearer carol-token" carol_payload).
  { split; [reflexivity |]. exists "carol-token". split; reflexivity. }
  split; [exact Hp |].
  apply (verified_token_rejected_when_upsert_fails sample_env sample_auth
           "Bearer carol-token" carol_payload (Assignments GET_assignments)
           sample_store Hp).
  left.
  exists (User.mk "alice" "alice@example.org" (Some "Al") None
                  "2024-01-01 00:00:00" "2024-01-01 00:00:00").
  split; [simpl; auto |]. split; [discriminate | reflexivity].
Defined.

(** Alice creates the essay: every assignment still has a known owner. *)
Lemma serve_keeps_owners_known_witness :
  owners_known sample_store /\
  owners_known
    (snd (serve sample_env sample_auth (Some "Bearer alice-token")
                (Assignments (POST_assignments essay)) sample_store)).
Proof.
  split; [exact sample_store_owners_known |].
  apply serve_keeps_owners_known. exact sample_store_owners_known.
Defined.

(** Alice asks who she is. *)
Lemma me_answers_caller_row_witness :
  exists u,
    getUser "alice"
      (users (snd (serve sample_env sample_auth (Some "Bearer alice-token")
                         GET_me sample_store))) = Some u /\
    assignments (snd (serve sample_env sample_auth
                            (Some "Bearer alice-token") GET_me sample_store))
      = sample_db.
Proof.
  assert (Hrun :
    serve sample_env sample_auth (Some "Bearer alice-token") GET_me
          sample_store =
    (UserJson
       (getUser "alice"
          (users (snd (serve sample_env sample_auth
                             (Some "Bearer alice-token") GET_me
                             sample_store)))),
     snd (serve sample_env sample_auth (Some "Bearer alice-token") GET_me
                sample_store)))
    by (vm_compute; reflexivity).
  destruct (me_answers_caller_row _ _ _ _ _ _ Hrun)
    as (h & payload & u & _ & _ & Hu & _ & _ & _ & Hassignments).
  exists u. split; [exact Hu | exact Hassignments].
Defined.

(** Alice deletes one of her assignments: Bob's row stays. *)
Lemma single_routes_keep_others_witness :
  (forall assignments, DELETE_assignment "a1" <> POST_sync assignments) /\
  rows_of_others "alice"
    (snd (handle sample_env "alice" (DELETE_assignment "a1") sample_db)) =
  rows_of_others "alice" sample_db.
Proof.
  assert (H : forall assignments,
            DELETE_assignment "a1" <> POST_sync assignments)
    by (intros a; discriminate).
  split; [exact H |].
  exact (single_routes_keep_others sample_env "alice"
           (DELETE_assignment "a1") sample_db H).
Defined.

(** Alice cannot update or delete Bob's assignment: 404 both times. *)
Lemma foreign_id_not_found_witness :
  updateAssignment sample_env "alice" "b1" falsy_update sample_db =
    (Reply 404 (ErrorBody "Assignment not found"), sample_db) /\
  deleteAssignment sample_env "alice" "b1" sample_db =
    (Reply 404 (ErrorBody "Assignment not found"), sample_db).
Proof.
  apply foreign_id_not_found.
  intros r Hin Hid. simpl in Hin.
  destruct Hin as [<- | [<- | [<- | [<- | []]]]];
    try discriminate Hid; discriminate.
Defined.

(** Alice's sync with Bob's id drops Bob's row. *)
Lemma sync_keeps_others_without_collision_witness :
  exists rows,
    item_rows sample_env "alice" 0 foreign_id_items = Returned rows /\
    rows_of_others "alice"
      (snd (syncAssignments sample_env "alice" (Some foreign_id_items)
                            sample_db)) =
    filter (fun x => negb (existsb (same_id (Row.id x)) rows))
           (rows_of_others "alice" sample_db).
Proof.
  eexists. split; [vm_compute; reflexivity |].
  apply sync_keeps_others_without_collision. vm_compute. reflexivity.
Defined.
